(** * mlarena SDK: the API client, its connection factory and tabular conversion

    A shallow embedding of [mlarena/__init__.py] (connect) and
    [mlarena/client.py] (MLArenaClient, _to_dataframe), with the properties
    the specification states about them.

    Modelling conventions.
    - Python values that travel through the client (decoded JSON bodies,
      optional arguments, stored defaults) are terms of [value]; [VNone] is
      Python's [None].  JSON numbers are integers here; floating point
      numbers are outside the model.
    - An f-string is kept as the list of its parts ([fstring]): literal text
      and interpolated values.  An interpolated [str] is its own text; the
      text of [str(v)] for any other value is left symbolic ([FVal v]).
    - Code that raises returns [Raise e]; code that mutates [self], opens
      files or talks to the network runs in the monad [M] over [state],
      which keeps the state when an exception propagates (the [finally]
      clause of [submit] needs it).
    - The file system, [inspect], [tempfile], [requests] and [pandas] are
      the environment [env]: what [os.path.isfile] answers, which directory
      [tempfile.mkdtemp] creates, what the server replies to a request and
      whether [import pandas] succeeds.
    - [submit] is the operation on a file system whose calls succeed:
      opening an existing file, creating the temporary directory, writing
      [agent.py], closing a handle and removing the directory.  [submit_io]
      is the same code with each of these calls able to fail, as [local_io]
      says; the two agree when none fails ([submit_io_reliable]). *)

From Stdlib Require Import String Ascii List ZArith Bool Arith Lia.
Import ListNotations.
Local Open Scope string_scope.
Local Open Scope list_scope.

(** ** Python values *)

Module Py.

(** Hashable scalars, the keys of a [dict]. *)
Inductive key : Type :=
| KNone
| KBool (b : bool)
| KInt (z : Z)
| KStr (s : string).

#[warnings="-register-all"]
Inductive value : Type :=
| VNone
| VBool (b : bool)
| VInt (z : Z)
| VStr (s : string)
| VList (l : list value)
| VDict (d : list (key * value)).

(** [bool(v)]: the truth value Python gives [v] in [if v], [not v], [a or b]. *)
Definition truthy (v : value) : bool :=
  match v with
  | VNone => false
  | VBool b => b
  | VInt z => negb (z =? 0)%Z
  | VStr s => negb (s =? "")
  | VList l => match l with [] => false | _ => true end
  | VDict d => match d with [] => false | _ => true end
  end.

(** [a or b] *)
Definition py_or (a b : value) : value := if truthy a then a else b.

(** [v is None] *)
Definition is_None (v : value) : bool :=
  match v with VNone => true | _ => false end.

(** Key equality as [dict] sees it: [True == 1] and [False == 0]. *)
Definition key_eqb (a b : key) : bool :=
  match a, b with
  | KNone, KNone => true
  | KBool x, KBool y => Bool.eqb x y
  | KInt x, KInt y => (x =? y)%Z
  | KBool x, KInt y | KInt y, KBool x => (y =? (if x then 1 else 0))%Z
  | KStr x, KStr y => (x =? y)
  | _, _ => false
  end.

(** [hash(v)] succeeds on scalars only; [None] stands for [TypeError: unhashable]. *)
Definition to_key (v : value) : option key :=
  match v with
  | VNone => Some KNone
  | VBool b => Some (KBool b)
  | VInt z => Some (KInt z)
  | VStr s => Some (KStr s)
  | VList _ | VDict _ => None
  end.

Definition of_key (k : key) : value :=
  match k with
  | KNone => VNone
  | KBool b => VBool b
  | KInt z => VInt z
  | KStr s => VStr s
  end.

(** [d.get(k)] on the entries of a dict. *)
Fixpoint dict_lookup (k : key) (d : list (key * value)) : option value :=
  match d with
  | [] => None
  | (k', v) :: rest => if key_eqb k' k then Some v else dict_lookup k rest
  end.

(** [d.get(k, default)] for a string [k]. *)
Definition dict_get (d : list (key * value)) (k : string) (default : value)
  : value :=
  match dict_lookup (KStr k) d with
  | Some x => x
  | None => default
  end.

(** [k in d] *)
Definition dict_mem (k : key) (d : list (key * value)) : bool :=
  match dict_lookup k d with Some _ => true | None => false end.

(** [d[k] = v]: an existing key keeps its place (and its first spelling),
    a new key goes to the end. *)
Fixpoint dict_set (k : key) (v : value) (d : list (key * value))
  : list (key * value) :=
  match d with
  | [] => [(k, v)]
  | (k', v') :: rest =>
      if key_eqb k' k then (k', v) :: rest else (k', v') :: dict_set k v rest
  end.

(** The characters of a string, as Python iterates them. *)
Fixpoint chars (s : string) : list value :=
  match s with
  | EmptyString => []
  | String c rest => VStr (String c EmptyString) :: chars rest
  end.

(** [iter(v)]: lists give their items, strings their characters, dicts
    their keys; [None] stands for [TypeError: not iterable]. *)
Definition iter (v : value) : option (list value) :=
  match v with
  | VList l => Some l
  | VStr s => Some (chars s)
  | VDict d => Some (map (fun kv => of_key (fst kv)) d)
  | VNone | VBool _ | VInt _ => None
  end.

(** [zip(a, b)] stops at the shorter argument: this is [List.combine]. *)
Definition zip (a b : list value) : list (value * value) := combine a b.

(** [dict(pairs)]: pairs are inserted left to right; an unhashable first
    component is a [TypeError] ([None]). *)
Fixpoint dict_of_pairs_from (acc : list (key * value))
  (pairs : list (value * value)) : option (list (key * value)) :=
  match pairs with
  | [] => Some acc
  | (a, b) :: rest =>
      match to_key a with
      | Some k => dict_of_pairs_from (dict_set k b acc) rest
      | None => None
      end
  end.

Definition dict_of_pairs (pairs : list (value * value))
  : option (list (key * value)) :=
  dict_of_pairs_from [] pairs.

(** *** f-strings *)

Inductive fpart : Type :=
| FLit (s : string)
| FVal (v : value).

Definition fstring := list fpart.

(** [{v}] inside an f-string. *)
Definition interp (v : value) : fpart :=
  match v with
  | VStr s => FLit s
  | _ => FVal v
  end.

(** Adjacent literal parts are one piece of text. *)
Fixpoint fjoin (parts : list fpart) : fstring :=
  match parts with
  | [] => []
  | p :: rest =>
      match p, fjoin rest with
      | FLit a, FLit b :: rest' => FLit (a ++ b) :: rest'
      | _, rest' => p :: rest'
      end
  end.

(** *** String methods used by the SDK *)

(** [c in s] for a one-character [c]. *)
Fixpoint contains_char (c : ascii) (s : string) : bool :=
  match s with
  | EmptyString => false
  | String a rest => Ascii.eqb a c || contains_char c rest
  end.

(** [s.split(c, 1)]: at most one split, at the first [c]. *)
Fixpoint split1 (c : ascii) (s : string) : list string :=
  match s with
  | EmptyString => [""]
  | String a rest =>
      if Ascii.eqb a c then [""; rest]
      else match split1 c rest with
           | hd :: tl => String a hd :: tl
           | [] => [String a ""]
           end
  end.

(** [s.rstrip(c)] for a one-character [c]: every trailing [c] goes. *)
Fixpoint rstrip (c : ascii) (s : string) : string :=
  match s with
  | EmptyString => ""
  | String a rest =>
      let rest' := rstrip c rest in
      if (rest' =? "") && Ascii.eqb a c then "" else String a rest'
  end.

(** [s.endswith(c)] for a one-character [c]. *)
Fixpoint endswith (c : ascii) (s : string) : bool :=
  match s with
  | EmptyString => false
  | String a EmptyString => Ascii.eqb a c
  | String _ rest => endswith c rest
  end.

(** [os.path.basename(p)]: what follows the last slash. *)
Fixpoint basename (p : string) : string :=
  match p with
  | EmptyString => ""
  | String _ rest => if contains_char "/" p then basename rest else p
  end.

(** [os.path.join(a, b)] (posixpath, two components). *)
Definition path_join (a b : string) : string :=
  match b with
  | String "/" _ => b
  | _ => if (a =? "") || endswith "/" a then a ++ b else a ++ "/" ++ b
  end.

End Py.
Import Py.

(** ** mlarena/exceptions.py and the exceptions of the libraries *)

Inductive exn : Type :=
| AuthenticationError (msg : value)
| SubmissionError (msg : fstring)
| CompetitionNotFoundError (msg : value)
| HTTPError (status_code : Z)      (* requests: raise_for_status *)
| TransportError                   (* requests: timeout, connection error *)
| JSONDecodeError                  (* resp.json() on a body that is not JSON *)
| AttributeError                   (* .get on something that is not a dict *)
| TypeError
| ValueError
| OSError.                         (* inspect.getsource without a source *)

(** The result of running Python code: a value, or an exception. *)
Inductive outcome (A : Type) : Type :=
| Return (a : A)
| Raise (e : exn).
Arguments Return {A} a.
Arguments Raise {A} e.

(** The three classes of exceptions.py derive from MLArenaError. *)
Definition is_MLArenaError (e : exn) : bool :=
  match e with
  | AuthenticationError _ | SubmissionError _ | CompetitionNotFoundError _ => true
  | _ => false
  end.

(** ** The client object: MLArenaClient.__init__ *)

Record MLArenaClient : Type := mkClient {
  _key_id : string;
  _key_pass : string;
  _base_url : string;
  _last_agent_id : value;
  _last_competition : value
}.

Definition MLArenaClient_init (key_id key_pass base_url : string) : MLArenaClient :=
  {| _key_id := key_id;
     _key_pass := key_pass;
     _base_url := base_url;
     _last_agent_id := VNone;
     _last_competition := VNone |}.

(** ** mlarena/__init__.py: connect *)

Definition default_base_url : string := "https://ml-arena.com".

Definition connect (api_key : string) (base_url : string) : outcome MLArenaClient :=
  if negb (truthy (VStr api_key)) || negb (contains_char ":" api_key) then
    Raise (AuthenticationError (VStr
      ("Invalid api_key format. Expected 'key_id:key_pass'. "
       ++ "Get your keys from your Profile page on ML Arena.")))
  else
    match split1 ":" api_key with
    | [key_id; key_pass] =>
        if negb (truthy (VStr key_id)) || negb (truthy (VStr key_pass)) then
          Raise (AuthenticationError (VStr "Both key_id and key_pass must be non-empty."))
        else
          Return (MLArenaClient_init key_id key_pass (rstrip "/" base_url))
    | _ => Raise ValueError     (* unpacking a list that has not two items *)
    end.

(** ** The environment and the state *)

(** What [requests] sends. *)
Inductive http_method : Type := GET | POST.

(** An open file object is known by its descriptor. *)
Definition handle := nat.

(** One multipart entry: [("files", (filename, open(path, "rb")))]. *)
Definition multipart := (string * (string * handle))%type.

Record request : Type := mkRequest {
  req_method : http_method;
  req_url : fstring;
  req_headers : list (string * string);
  req_files : list multipart;
  req_data : list (string * value);
  req_timeout : Z
}.

(** What [requests] hands back: [resp.status_code], [resp.text] and
    [resp.json()], which is [None] when the body does not decode. *)
Record response : Type := mkResponse {
  status_code : Z;
  text : string;
  json : option value
}.

(** The class passed as [agent=]: [inspect.getsource] gives its source
    text, or raises when there is none to be had. *)
Record agent_class : Type := mkAgent {
  getsource : option string
}.

Record env : Type := mkEnv {
  isfile : string -> bool;                  (* os.path.isfile *)
  mkdtemp : string;                         (* the directory tempfile.mkdtemp() creates *)
  send : request -> outcome response;       (* requests.post / requests.get *)
  pandas_installed : bool                   (* whether import pandas succeeds *)
}.

(** What the client does to the world, in order. *)
Inductive event : Type :=
| EOpen (h : handle) (path : string) (mode : string)
| EWrite (h : handle) (data : string)
| EClose (h : handle)
| EMkdtemp (dir : string)
| ERmtree (dir : string)
| ERequest (r : request).

(** [self], the trace of effects, the next free descriptor, and the two
    locals of [submit] that its [finally] clause reads. *)
Record state : Type := mkState {
  self : MLArenaClient;
  trace : list event;
  next_fd : handle;
  multipart_files : list multipart;
  tmp_dir : option string
}.

Definition initial_state (c : MLArenaClient) : state :=
  {| self := c; trace := []; next_fd := 3; multipart_files := []; tmp_dir := None |}.

(** ** The monad of client code *)

Definition M (A : Type) : Type := state -> outcome A * state.

Definition ret {A} (a : A) : M A := fun s => (Return a, s).

Definition raise {A} (e : exn) : M A := fun s => (Raise e, s).

Definition bind {A B} (m : M A) (k : A -> M B) : M B :=
  fun s =>
    match m s with
    | (Return a, s') => k a s'
    | (Raise e, s') => (Raise e, s')
    end.

Notation "x <- m ;; k" := (bind m (fun x => k))
  (at level 61, m at next level, right associativity).
Notation "m ;; k" := (bind m (fun _ => k))
  (at level 61, right associativity).

(** [try: body finally: fin].  The clause runs on every exit of the body;
    an exception of the clause replaces the outcome of the body. *)
Definition try_finally {A} (body : M A) (fin : M unit) : M A :=
  fun s =>
    let (r, s1) := body s in
    match fin s1 with
    | (Return _, s2) => (r, s2)
    | (Raise e, s2) => (Raise e, s2)
    end.

Definition get_self : M MLArenaClient := fun s => (Return (self s), s).

Definition emit (e : event) : M unit :=
  fun s => (Return tt,
            {| self := self s; trace := trace s ++ [e]; next_fd := next_fd s;
               multipart_files := multipart_files s; tmp_dir := tmp_dir s |}).

(** [open(path, mode)] when it succeeds: a fresh descriptor.  The call
    that can raise is [open_io]. *)
Definition py_open (path mode : string) : M handle :=
  fun s => (Return (next_fd s),
            {| self := self s; trace := trace s ++ [EOpen (next_fd s) path mode];
               next_fd := S (next_fd s);
               multipart_files := multipart_files s; tmp_dir := tmp_dir s |}).

(** [multipart_files = fs] *)
Definition set_multipart_files (fs : list multipart) : M unit :=
  fun s => (Return tt,
            {| self := self s; trace := trace s; next_fd := next_fd s;
               multipart_files := fs; tmp_dir := tmp_dir s |}).

(** [multipart_files.append(f)] *)
Definition append_multipart (f : multipart) : M unit :=
  fun s => set_multipart_files (multipart_files s ++ [f]) s.

Definition set_tmp_dir (d : option string) : M unit :=
  fun s => (Return tt,
            {| self := self s; trace := trace s; next_fd := next_fd s;
               multipart_files := multipart_files s; tmp_dir := d |}).

(** [self._last_agent_id = a; self._last_competition = c] *)
Definition set_last (a c : value) : M unit :=
  fun s => (Return tt,
            {| self := {| _key_id := _key_id (self s);
                          _key_pass := _key_pass (self s);
                          _base_url := _base_url (self s);
                          _last_agent_id := a;
                          _last_competition := c |};
               trace := trace s; next_fd := next_fd s;
               multipart_files := multipart_files s; tmp_dir := tmp_dir s |}).

Definition lift {A} (o : outcome A) : M A := fun s => (o, s).

(** [requests.post(...)] / [requests.get(...)]: the request goes out, then
    the transport answers or fails. *)
Definition http (e : env) (r : request) : M response :=
  emit (ERequest r) ;; lift (send e r).

(** ** mlarena/client.py *)

(** [resp.json()] *)
Definition resp_json (resp : response) : outcome value :=
  match json resp with
  | Some v => Return v
  | None => Raise JSONDecodeError
  end.

(** [v.get(k, default)]: only a dict has the method. *)
Definition py_get (v : value) (k : string) (default : value) : outcome value :=
  match v with
  | VDict d => Return (dict_get d k default)
  | _ => Raise AttributeError
  end.

(** [resp.json().get(k, default)] *)
Definition json_get (resp : response) (k : string) (default : value) : outcome value :=
  match resp_json resp with
  | Return v => py_get v k default
  | Raise e => Raise e
  end.

(** [resp.raise_for_status()]: client and server error codes raise. *)
Definition raise_for_status (resp : response) : outcome unit :=
  if ((400 <=? status_code resp) && (status_code resp <? 600))%Z
  then Raise (HTTPError (status_code resp))
  else Return tt.

Definition _headers (c : MLArenaClient) : list (string * string) :=
  [("Authorization", ("Bearer " ++ _key_id c ++ ":" ++ _key_pass c)%string)].

Definition _url (c : MLArenaClient) (path : fstring) : fstring :=
  fjoin (FLit (_base_url c) :: FLit "/api/sdk" :: path).

Definition _handle_response (resp : response) : outcome response :=
  if (status_code resp =? 401)%Z then
    Raise (AuthenticationError
             (VStr "Invalid API credentials. Check your key_id and key_pass."))
  else if (status_code resp =? 403)%Z then
    match json_get resp "error" (VStr "Access denied") with
    | Return msg => Raise (AuthenticationError msg)
    | Raise e => Raise e
    end
  else if (status_code resp =? 404)%Z then
    match json_get resp "error" (VStr "Not found") with
    | Return msg => Raise (CompetitionNotFoundError msg)
    | Raise e => Raise e
    end
  else Return resp.

(** The loop of the [files=] mode: each path is checked, opened and staged
    in turn; the first missing one ends the loop. *)
Fixpoint stage_files (e : env) (files : list string) : M unit :=
  match files with
  | [] => ret tt
  | path :: rest =>
      if negb (isfile e path) then
        raise (SubmissionError (fjoin [FLit "File not found: "; interp (VStr path)]))
      else
        h <- py_open path "rb" ;;
        append_multipart ("files", (basename path, h)) ;;
        stage_files e rest
  end.

(** The [agent=] mode: the source goes to [agent.py] in a fresh directory. *)
Definition stage_agent (e : env) (agent : agent_class) : M unit :=
  source <- lift (match getsource agent with
                  | Some src => Return src
                  | None => Raise OSError
                  end) ;;
  emit (EMkdtemp (mkdtemp e)) ;;
  set_tmp_dir (Some (mkdtemp e)) ;;
  let tmp_path := path_join (mkdtemp e) "agent.py" in
  f <- py_open tmp_path "w" ;;
  emit (EWrite f source) ;;
  emit (EClose f) ;;
  h <- py_open tmp_path "rb" ;;
  append_multipart ("files", ("agent.py", h)).

(** [for _, file_tuple in multipart_files: file_tuple[1].close()], when
    no [close] raises.  The loop that a raising [close] ends is
    [close_all_io]. *)
Fixpoint close_all (fs : list multipart) : M unit :=
  match fs with
  | [] => ret tt
  | (_, (_, h)) :: rest => emit (EClose h) ;; close_all rest
  end.

(** The [finally] clause of [submit]. *)
Definition submit_finally : M unit :=
  (fun s => close_all (multipart_files s) s) ;;
  (fun s =>
     match tmp_dir s with
     | Some d => if truthy (VStr d) then emit (ERmtree d) s else ret tt s
     | None => ret tt s
     end).

Definition success_codes : list Z := [200; 201; 202]%Z.

Definition is_success (code : Z) : bool :=
  existsb (Z.eqb code) success_codes.

Definition set_last_agent_id (a : value) : M unit :=
  fun s => set_last a (_last_competition (self s)) s.

Definition set_last_competition (c : value) : M unit :=
  fun s => set_last (_last_agent_id (self s)) c s.

(** Lines 61 to 73: staging, in one of the two modes.  With [agent] absent
    the loop iterates [files]; iterating [None] would be a TypeError. *)
Definition stage (e : env) (agent : option agent_class)
  (files : option (list string)) : M unit :=
  match agent with
  | Some a => stage_agent e a
  | None =>
      match files with
      | Some fs => stage_files e fs
      | None => raise TypeError
      end
  end.

(** Lines 75 to 85: the form data and the arguments of [requests.post]. *)
Definition submit_request (c : MLArenaClient) (competition : value)
  (staged : list multipart) (agent_name : value) : request :=
  let data := if truthy agent_name then [("agent_name", agent_name)] else [] in
  {| req_method := POST;
     req_url := _url c (fjoin [FLit "/submit/"; interp competition]);
     req_headers := _headers c;
     req_files := staged;
     req_data := data;
     req_timeout := 120 |}.

(** Lines 87 to 96: what [submit] does with the response. *)
Definition submit_response (competition : value) (resp : response) : M value :=
  lift (_handle_response resp) ;;
  if negb (is_success (status_code resp)) then
    error_msg <- lift (json_get resp "error" (VStr (text resp))) ;;
    raise (SubmissionError (fjoin [FLit "Submission failed: "; interp error_msg]))
  else
    result <- lift (resp_json resp) ;;
    agent_id <- lift (py_get result "agent_id" VNone) ;;
    set_last_agent_id agent_id ;;
    set_last_competition competition ;;
    ret result.

(** The [try] block of [submit]. *)
Definition submit_body (e : env) (competition : value)
  (agent : option agent_class) (files : option (list string))
  (agent_name : value) : M value :=
  stage e agent files ;;
  c <- get_self ;;
  staged <- (fun s => ret (multipart_files s) s) ;;
  resp <- http e (submit_request c competition staged agent_name) ;;
  submit_response competition resp.

Definition submit (e : env) (competition : value)
  (agent : option agent_class) (files : option (list string))
  (agent_name : value) : M value :=
  match agent, files with
  | None, None =>
      raise (SubmissionError
               [FLit "Provide either agent= (a class) or files= (list of paths)"])
  | Some _, Some _ =>
      raise (SubmissionError [FLit "Provide either agent= or files=, not both"])
  | _, _ =>
      set_multipart_files [] ;;
      set_tmp_dir None ;;
      try_finally (submit_body e competition agent files agent_name)
                  submit_finally
  end.

(** The arguments of [requests.get] in [status], [leaderboard] and
    [competitions]. *)
Definition status_request (c : MLArenaClient) (agent_id : value) : request :=
  {| req_method := GET;
     req_url := _url c (fjoin [FLit "/status/"; interp agent_id]);
     req_headers := _headers c;
     req_files := [];
     req_data := [];
     req_timeout := 30 |}.

Definition leaderboard_request (c : MLArenaClient) (competition : value)
  : request :=
  {| req_method := GET;
     req_url := _url c (fjoin [FLit "/leaderboard/"; interp competition]);
     req_headers := [];
     req_files := [];
     req_data := [];
     req_timeout := 30 |}.

Definition competitions_request (c : MLArenaClient) : request :=
  {| req_method := GET;
     req_url := _url c [FLit "/competitions"];
     req_headers := [];
     req_files := [];
     req_data := [];
     req_timeout := 30 |}.

Definition status (e : env) (agent_id : value) : M value :=
  c <- get_self ;;
  let agent_id := py_or agent_id (_last_agent_id c) in
  if is_None agent_id then
    raise (SubmissionError
             [FLit "No agent_id provided and no previous submission found"])
  else
    resp <- http e (status_request c agent_id) ;;
    lift (_handle_response resp) ;;
    lift (raise_for_status resp) ;;
    lift (resp_json resp).

(** What [leaderboard] and [competitions] return: the value itself, or
    [pd.DataFrame(rows)].  pandas is not part of the repository:
    [DataFrame rows] stands for the call with its argument, that is, for
    whatever pandas makes of [rows], a frame or an exception of its own.
    The call is not evaluated here; [pandas_frame] below says what pandas
    makes of a list of records. *)
Inductive table : Type :=
| Plain (v : value)
| DataFrame (rows : list value).

(** [dict(zip(columns, row))] *)
Definition row_dict (columns row : value) : outcome value :=
  match iter columns, iter row with
  | Some cs, Some r =>
      match dict_of_pairs (zip cs r) with
      | Some d => Return (VDict d)
      | None => Raise TypeError
      end
  | _, _ => Raise TypeError
  end.

(** A list comprehension whose element expression may raise. *)
Fixpoint comprehension (f : value -> outcome value) (l : list value)
  : outcome (list value) :=
  match l with
  | [] => Return []
  | x :: rest =>
      match f x with
      | Raise e => Raise e
      | Return y =>
          match comprehension f rest with
          | Raise e => Raise e
          | Return ys => Return (y :: ys)
          end
      end
  end.

(** [data[k]] on a dict. *)
Definition subscript (d : list (key * value)) (k : string) : value :=
  match dict_lookup (KStr k) d with Some v => v | None => VNone end.

Definition is_columnar (data : value) : bool :=
  match data with
  | VDict d => dict_mem (KStr "columns") d && dict_mem (KStr "data") d
  | _ => false
  end.

Definition _to_dataframe (pandas : bool) (data : value) : outcome table :=
  let wrap (rows : list value) :=
    if pandas then DataFrame rows else Plain (VList rows) in
  match data with
  | VDict d =>
      if is_columnar data then
        match iter (subscript d "data") with
        | None => Raise TypeError
        | Some items =>
            match comprehension (row_dict (subscript d "columns")) items with
            | Return rows => Return (wrap rows)
            | Raise e => Raise e
            end
        end
      else Return (Plain data)
  | VList l => Return (wrap l)
  | _ => Return (Plain data)
  end.

Definition leaderboard (e : env) (competition : value) : M table :=
  c <- get_self ;;
  let competition := py_or competition (_last_competition c) in
  if is_None competition then
    raise (SubmissionError
             [FLit "No competition specified and no previous submission found"])
  else
    resp <- http e (leaderboard_request c competition) ;;
    lift (_handle_response resp) ;;
    lift (raise_for_status resp) ;;
    data <- lift (resp_json resp) ;;
    lift (_to_dataframe (pandas_installed e) data).

Definition competitions (e : env) : M table :=
  c <- get_self ;;
  resp <- http e (competitions_request c) ;;
  lift (raise_for_status resp) ;;
  data <- lift (resp_json resp) ;;
  lift (_to_dataframe (pandas_installed e) data).

(** ** What the specification says of the stored base URL

    The construction contract of the specification speaks of a lower-cased,
    whitespace-trimmed base URL without trailing slash.  [spec_normalize_base_url]
    follows those words; it is compared with what [connect] stores. *)

Definition lower_char (a : ascii) : ascii :=
  let n := nat_of_ascii a in
  if ((65 <=? n) && (n <=? 90))%nat then ascii_of_nat (n + 32) else a.

Fixpoint lower (s : string) : string :=
  match s with
  | EmptyString => ""
  | String a rest => String (lower_char a) (lower rest)
  end.

Definition is_space (a : ascii) : bool :=
  let n := nat_of_ascii a in
  ((n =? 32) || ((9 <=? n) && (n <=? 13)))%nat.

Fixpoint lstrip_space (s : string) : string :=
  match s with
  | EmptyString => ""
  | String a rest => if is_space a then lstrip_space rest else s
  end.

Fixpoint rstrip_space (s : string) : string :=
  match s with
  | EmptyString => ""
  | String a rest =>
      let rest' := rstrip_space rest in
      if (rest' =? "") && is_space a then "" else String a rest'
  end.

Definition spec_normalize_base_url (s : string) : string :=
  rstrip "/" (rstrip_space (lstrip_space (lower s))).

(** [n] copies of the character [c]. *)
Fixpoint repeat_char (c : ascii) (n : nat) : string :=
  match n with
  | O => ""
  | S n' => String c (repeat_char c n')
  end.

(** ** Reading a trace *)


Definition mem_handle (h : handle) (l : list handle) : bool :=
  existsb (Nat.eqb h) l.

Definition drop_handle (h : handle) (l : list handle) : list handle :=
  filter (fun x => negb (Nat.eqb h x)) l.

Definition mem_dir (d : string) (l : list string) : bool :=
  existsb (String.eqb d) l.

Definition drop_dir (d : string) (l : list string) : list string :=
  filter (fun x => negb (String.eqb d x)) l.

(** The resource discipline of a trace, replayed from the handles [open]
    and the temporary directories [dirs] held at its start: a handle is
    opened only when it is not open, written, sent and closed only while it
    is open; a directory is created only when it is not held and removed
    only while it is held.  A trace that breaks the discipline has no
    replay; one that keeps it ends with the handles still open and the
    directories still there.  So [replay [] [] t = Some ([], [])] says that
    each handle opened in [t] is closed once, after its opening, and each
    directory created is removed once. *)
Fixpoint replay (open : list handle) (dirs : list string) (t : list event)
  : option (list handle * list string) :=
  match t with
  | [] => Some (open, dirs)
  | EOpen h _ _ :: rest =>
      if mem_handle h open then None else replay (h :: open) dirs rest
  | EWrite h _ :: rest =>
      if mem_handle h open then replay open dirs rest else None
  | EClose h :: rest =>
      if mem_handle h open then replay (drop_handle h open) dirs rest else None
  | EMkdtemp d :: rest =>
      if mem_dir d dirs then None else replay open (d :: dirs) rest
  | ERmtree d :: rest =>
      if mem_dir d dirs then replay open (drop_dir d dirs) rest else None
  | ERequest r :: rest =>
      if forallb (fun f => mem_handle (snd (snd f)) open) (req_files r)
      then replay open dirs rest
      else None
  end.

(** The paths of [files] that the loop of [submit] stages: those before
    the first one that is not a file. *)
Fixpoint existing_prefix (e : env) (files : list string) : list string :=
  match files with
  | [] => []
  | p :: rest => if isfile e p then p :: existing_prefix e rest else []
  end.

(** The first path of [files] that is not a file. *)
Fixpoint first_missing (e : env) (files : list string) : option string :=
  match files with
  | [] => None
  | p :: rest => if isfile e p then first_missing e rest else Some p
  end.

(** Opening [files] in turn, from descriptor [n] on: the events, and the
    multipart entries. *)
Fixpoint opens (files : list string) (n : handle) : list event :=
  match files with
  | [] => []
  | p :: rest => EOpen n p "rb" :: opens rest (S n)
  end.

Fixpoint entries (files : list string) (n : handle) : list multipart :=
  match files with
  | [] => []
  | p :: rest => ("files", (basename p, n)) :: entries rest (S n)
  end.

Definition closes (fs : list multipart) : list event :=
  map (fun f => EClose (snd (snd f))) fs.

(** The arguments with which [submit] gets as far as its POST: one of
    [agent] and [files], a class whose source can be read, paths that are
    all files. *)
Definition staging_ok (e : env) (agent : option agent_class)
  (files : option (list string)) : bool :=
  match agent, files with
  | Some a, None => match getsource a with Some _ => true | None => false end
  | None, Some fs => forallb (isfile e) fs
  | _, _ => false
  end.

(** The rows of a table: the value returned, or the list of rows that is
    handed to [pd.DataFrame].  This is the argument of the call, not what
    pandas makes of it. *)
Definition logical_content (t : table) : value :=
  match t with
  | Plain v => v
  | DataFrame rows => VList rows
  end.

Definition outcome_map {A B} (f : A -> B) (o : outcome A) : outcome B :=
  match o with
  | Return a => Return (f a)
  | Raise e => Raise e
  end.

(** The value paired with the last occurrence of [name] in a list of pairs. *)
Fixpoint last_value (name : string) (pairs : list (string * value))
  : option value :=
  match pairs with
  | [] => None
  | (n, v) :: rest =>
      match last_value name rest with
      | Some w => Some w
      | None => if (n =? name)%string then Some v else None
      end
  end.

(** What it is for the mapping [m] to pair the column names [cs] with the
    values of [row] position by position, as [dict(zip(cs, row))] does: a
    name is mapped to the value at its position (at its last position
    within the row, should the name occur twice), a name without a
    position within the row is not in the mapping, and the mapping has no
    key but column names. *)
Definition pairs_columns (cs : list string) (row : list value)
  (m : list (key * value)) : Prop :=
  (forall j name v,
      nth_error cs j = Some name -> nth_error row j = Some v ->
      (forall j', j < j' -> nth_error cs j' = Some name -> nth_error row j' = None) ->
      dict_lookup (KStr name) m = Some v)
  /\ (forall name,
         (forall j, nth_error cs j = Some name -> nth_error row j = None) ->
         dict_lookup (KStr name) m = None)
  /\ (forall k, In k (map fst m) -> exists name, k = KStr name /\ In name cs).

(** The state [s] after [k] more descriptors were handed out, the events
    [t] happened and the entries [fs] were appended to [multipart_files]. *)
Definition extend (s : state) (t : list event) (k : nat) (fs : list multipart)
  : state :=
  {| self := self s;
     trace := trace s ++ t;
     next_fd := next_fd s + k;
     multipart_files := multipart_files s ++ fs;
     tmp_dir := tmp_dir s |}.

(** The exception of the loop of [submit] for a path that is not a file. *)
Definition file_not_found (path : string) : exn :=
  SubmissionError (fjoin [FLit "File not found: "; interp (VStr path)]).

(** The state [s] after the events [t]. *)
Definition record_events (s : state) (t : list event) : state :=
  {| self := self s;
     trace := trace s ++ t;
     next_fd := next_fd s;
     multipart_files := multipart_files s;
     tmp_dir := tmp_dir s |}.

(** The state in which the [try] block of [submit] starts:
    [multipart_files = []] and [tmp_dir = None]. *)
Definition enter_submit (s : state) : state :=
  {| self := self s;
     trace := trace s;
     next_fd := next_fd s;
     multipart_files := [];
     tmp_dir := None |}.

(** What the [finally] clause of [submit] does in state [s]. *)
Definition finally_events (s : state) : list event :=
  closes (multipart_files s)
  ++ match tmp_dir s with
     | Some d => if truthy (VStr d) then [ERmtree d] else []
     | None => []
     end.

(** What staging the source of an agent does, from descriptor [n] on. *)
Definition agent_events (e : env) (source : string) (n : handle) : list event :=
  [EMkdtemp (mkdtemp e);
   EOpen n (path_join (mkdtemp e) "agent.py") "w";
   EWrite n source;
   EClose n;
   EOpen (S n) (path_join (mkdtemp e) "agent.py") "rb"].

(** ** Example environments and clients *)

Definition example_client : MLArenaClient :=
  MLArenaClient_init "id" "pass" "https://ml-arena.com".

(** A file system with the one file [agent.py], and a server that answers
    [resp] to every request. *)
Definition mock_env (resp : response) : env :=
  {| isfile := fun p => (p =? "agent.py")%string;
     mkdtemp := "/tmp/tmpk3q";
     send := fun _ => Return resp;
     pandas_installed := false |}.

(** A JSON string literal: the text between double quotes. *)
Definition json_str (s : string) : string :=
  (String "034"%char s ++ String "034"%char "")%string.

(** The JSON text of an object with string values. *)
Fixpoint json_members (kvs : list (string * string)) : string :=
  match kvs with
  | [] => ""
  | [(k, v)] => (json_str k ++ ": " ++ json_str v)%string
  | (k, v) :: rest =>
      (json_str k ++ ": " ++ json_str v ++ ", " ++ json_members rest)%string
  end.

Definition json_object (kvs : list (string * string)) : string :=
  ("{" ++ json_members kvs ++ "}")%string.

(** What the text of such an object decodes to. *)
Definition decoded_object (kvs : list (string * string)) : value :=
  VDict (map (fun kv => (KStr (fst kv), VStr (snd kv))) kvs).

Definition json_response (code : Z) (kvs : list (string * string)) : response :=
  {| status_code := code;
     text := json_object kvs;
     json := Some (decoded_object kvs) |}.

(** HTTP 500 with a body that is not JSON. *)
Definition plain_500 : response :=
  {| status_code := 500; text := "Internal Server Error"; json := None |}.

(** HTTP 404 with body [{"error": "no such comp"}]. *)
Definition not_found_404 : response :=
  json_response 404 [("error", "no such comp")]%string.

(** HTTP 201 with body [{"agent_id": "A1", "status": "queued"}]. *)
Definition created_201 : response :=
  json_response 201 [("agent_id", "A1"); ("status", "queued")]%string.

(** HTTP 200 with body [{"status": "queued"}]: no agent identifier. *)
Definition ok_without_id : response :=
  json_response 200 [("status", "queued")]%string.

(** HTTP 500 with body [{"detail": "boom"}]: a dict without [error]. *)
Definition failed_500 : response :=
  json_response 500 [("detail", "boom")]%string.

(** ** MLArenaClient.__repr__ *)

(** [s[:n]] *)
Fixpoint slice_to (n : nat) (s : string) : string :=
  match n, s with
  | S n', String a rest => String a (slice_to n' rest)
  | _, _ => ""
  end.

Definition __repr__ (c : MLArenaClient) : string :=
  ("MLArenaClient(base_url='" ++ _base_url c ++ "', key_id='"
   ++ slice_to 8 (_key_id c) ++ "...')")%string.

(** What a query may do to the state [s], giving [s']: [self] and the
    descriptors stay as they are, and the trace gains nothing, or one GET
    request without file parts and form data. *)
Definition query_effect (s s' : state) : Prop :=
  self s' = self s
  /\ next_fd s' = next_fd s
  /\ (trace s' = trace s
      \/ exists r,
           trace s' = trace s ++ [ERequest r]
           /\ req_method r = GET /\ req_files r = [] /\ req_data r = []).

(** [s[n:]] *)
Fixpoint slice_from (n : nat) (s : string) : string :=
  match n, s with
  | S n', String _ rest => slice_from n' rest
  | _, _ => s
  end.

(** ** What pandas makes of a list of records

    pandas is a library, not code of the repository.  [pandas_frame] follows
    its documented behaviour for [pd.DataFrame] on a list of dicts: the
    columns are the keys in the order of their first appearance, every
    record gets every column, and where a record has no entry for a column
    the frame has NaN.  A list that holds anything but dicts is outside this
    model ([None]), and so are the conversions pandas applies to numbers. *)

Inductive cell : Type :=
| Cell (v : value)
| NaN.

Record frame : Type := mkFrame {
  frame_columns : list key;
  frame_cells : list (list cell)
}.

(** The columns [cols] followed by the keys of [ks] that are new. *)
Fixpoint add_keys (cols ks : list key) : list key :=
  match ks with
  | [] => cols
  | k :: rest =>
      add_keys (if existsb (key_eqb k) cols then cols else cols ++ [k]) rest
  end.

Fixpoint record_columns (cols : list key) (rows : list value)
  : option (list key) :=
  match rows with
  | [] => Some cols
  | VDict d :: rest => record_columns (add_keys cols (map fst d)) rest
  | _ :: _ => None
  end.

Definition record_cells (cols : list key) (row : value) : list cell :=
  match row with
  | VDict d =>
      map (fun c => match dict_lookup c d with
                    | Some v => Cell v
                    | None => NaN
                    end) cols
  | _ => []
  end.

Definition pandas_frame (rows : list value) : option frame :=
  match record_columns [] rows with
  | Some cols =>
      Some {| frame_columns := cols;
              frame_cells := map (record_cells cols) rows |}
  | None => None
  end.

(** The records of a frame, and the records of a list of dicts, as lists
    of column and cell. *)
Definition frame_records (f : frame) : list (list (key * cell)) :=
  map (combine (frame_columns f)) (frame_cells f).

Definition plain_records (rows : list value) : list (list (key * cell)) :=
  map (fun row => match row with
                  | VDict d => map (fun kv => (fst kv, Cell (snd kv))) d
                  | _ => []
                  end) rows.

(** The shapes of data that [_to_dataframe] converts: a list, or a dict
    with [columns] and [data]. *)
Definition is_tabular (data : value) : bool :=
  match data with
  | VList _ => true
  | _ => is_columnar data
  end.

(** A column-oriented value whose second row is one value short. *)
Definition ragged_board : value :=
  VDict [(KStr "columns", VList [VStr "name"; VStr "score"]);
         (KStr "data", VList [VList [VStr "x"; VInt 1]; VList [VStr "y"]])].

(** ** submit with local I/O that can fail

    Which of the calls of [submit] to the file system fail.  A call that
    raises, raises OSError.  [shutil.rmtree] is called with
    [ignore_errors=True]: when the removal fails nothing is raised and the
    directory stays.  A [close] that raises has released its descriptor all
    the same (the file object is closed before the error is reported). *)
Record local_io : Type := mkIO {
  open_raises : string -> string -> bool;    (* open(path, mode) raises *)
  write_raises : bool;                       (* f.write(source) raises *)
  close_raises : handle -> string -> bool;   (* close() of a handle opened in a mode raises *)
  mkdtemp_raises : bool;                     (* tempfile.mkdtemp() raises *)
  rmtree_fails : bool                        (* the removal fails, silently *)
}.

(** Nothing fails. *)
Definition reliable : local_io :=
  {| open_raises := fun _ _ => false;
     write_raises := false;
     close_raises := fun _ _ => false;
     mkdtemp_raises := false;
     rmtree_fails := false |}.

Definition open_io (io : local_io) (path mode : string) : M handle :=
  if open_raises io path mode then raise OSError else py_open path mode.

Definition close_io (io : local_io) (h : handle) (mode : string) : M unit :=
  emit (EClose h) ;;
  if close_raises io h mode then raise OSError else ret tt.

Fixpoint stage_files_io (io : local_io) (e : env) (files : list string)
  : M unit :=
  match files with
  | [] => ret tt
  | path :: rest =>
      if negb (isfile e path) then
        raise (SubmissionError (fjoin [FLit "File not found: "; interp (VStr path)]))
      else
        h <- open_io io path "rb" ;;
        append_multipart ("files", (basename path, h)) ;;
        stage_files_io io e rest
  end.

(** [with open(tmp_path, "w") as f: f.write(source)] is a [try] whose
    [finally] closes [f]. *)
Definition stage_agent_io (io : local_io) (e : env) (agent : agent_class)
  : M unit :=
  source <- lift (match getsource agent with
                  | Some src => Return src
                  | None => Raise OSError
                  end) ;;
  (if mkdtemp_raises io then raise OSError
   else emit (EMkdtemp (mkdtemp e)) ;; set_tmp_dir (Some (mkdtemp e))) ;;
  let tmp_path := path_join (mkdtemp e) "agent.py" in
  f <- open_io io tmp_path "w" ;;
  try_finally (if write_raises io then raise OSError
               else emit (EWrite f source))
              (close_io io f "w") ;;
  h <- open_io io tmp_path "rb" ;;
  append_multipart ("files", ("agent.py", h)).

(** The loop of the [finally] clause ends at the first [close] that
    raises. *)
Fixpoint close_all_io (io : local_io) (fs : list multipart) : M unit :=
  match fs with
  | [] => ret tt
  | (_, (_, h)) :: rest => close_io io h "rb" ;; close_all_io io rest
  end.

Definition submit_finally_io (io : local_io) : M unit :=
  (fun s => close_all_io io (multipart_files s) s) ;;
  (fun s =>
     match tmp_dir s with
     | Some d =>
         if truthy (VStr d) then
           (if rmtree_fails io then ret tt s else emit (ERmtree d) s)
         else ret tt s
     | None => ret tt s
     end).

Definition stage_io (io : local_io) (e : env) (agent : option agent_class)
  (files : option (list string)) : M unit :=
  match agent with
  | Some a => stage_agent_io io e a
  | None =>
      match files with
      | Some fs => stage_files_io io e fs
      | None => raise TypeError
      end
  end.

Definition submit_body_io (io : local_io) (e : env) (competition : value)
  (agent : option agent_class) (files : option (list string))
  (agent_name : value) : M value :=
  stage_io io e agent files ;;
  c <- get_self ;;
  staged <- (fun s => ret (multipart_files s) s) ;;
  resp <- http e (submit_request c competition staged agent_name) ;;
  submit_response competition resp.

Definition submit_io (io : local_io) (e : env) (competition : value)
  (agent : option agent_class) (files : option (list string))
  (agent_name : value) : M value :=
  match agent, files with
  | None, None =>
      raise (SubmissionError
               [FLit "Provide either agent= (a class) or files= (list of paths)"])
  | Some _, Some _ =>
      raise (SubmissionError [FLit "Provide either agent= or files=, not both"])
  | _, _ =>
      set_multipart_files [] ;;
      set_tmp_dir None ;;
      try_finally (submit_body_io io e competition agent files agent_name)
                  (submit_finally_io io)
  end.



(** A file system with the files [agent.py] and [model.bin]. *)
Definition two_files_env (resp : response) : env :=
  {| isfile := fun p => ((p =? "agent.py") || (p =? "model.bin"))%string;
     mkdtemp := "/tmp/tmpk3q";
     send := fun _ => Return resp;
     pandas_installed := false |}.



(** [model.bin] cannot be opened, the write of [agent.py] fails and so
    does the close that follows it. *)
Definition open_failing : local_io :=
  {| open_raises := fun p _ => (p =? "model.bin")%string;
     write_raises := true;
     close_raises := fun _ mode => (mode =? "w")%string;
     mkdtemp_raises := false;
     rmtree_fails := false |}.

(** ** Strings: splitting and stripping *)

Section Strings.

Local Open Scope string_scope.

Variable c : ascii.

Lemma contains_char_app (a b : string) :
  contains_char c (a ++ b) = contains_char c a || contains_char c b.
Proof.
  induction a as [| x a IH]; simpl; [reflexivity |].
  rewrite IH. apply orb_assoc.
Qed.

(** Splitting [before ++ c ++ after], where [before] is free of [c], gives
    exactly these two halves. *)
Lemma split1_at_first (before after : string) :
  contains_char c before = false ->
  split1 c (before ++ String c after) = [before; after].
Proof.
  induction before as [| x before IH]; simpl; intros H.
  - rewrite Ascii.eqb_refl. reflexivity.
  - apply orb_false_elim in H. destruct H as [Hx Hrest].
    rewrite Hx, (IH Hrest). reflexivity.
Qed.

(** A string that contains [c] is some [before ++ c ++ after] with [before]
    free of [c]. *)
Lemma contains_char_split (s : string) :
  contains_char c s = true ->
  exists before after,
    s = before ++ String c after /\ contains_char c before = false.
Proof.
  induction s as [| x s IH]; simpl; intros H; [discriminate |].
  destruct (Ascii.eqb x c) eqn:Hx.
  - apply Ascii.eqb_eq in Hx. subst x. exists "", s. split; reflexivity.
  - destruct (IH H) as (before & after & Hs & Hb).
    exists (String x before), after. simpl. rewrite Hx, Hb, Hs.
    split; reflexivity.
Qed.

(** [rstrip] gives the prefix of its argument that is left when the run of
    [c] at the end is cut off. *)
Lemma rstrip_prefix (s : string) :
  exists n, s = rstrip c s ++ repeat_char c n.
Proof.
  induction s as [| x s [n IH]]; simpl.
  - exists 0. reflexivity.
  - destruct (rstrip c s =? "") eqn:Hempty; simpl.
    + apply String.eqb_eq in Hempty. rewrite Hempty in IH. simpl in IH.
      destruct (Ascii.eqb x c) eqn:Hx.
      * apply Ascii.eqb_eq in Hx. subst x. exists (S n). simpl.
        rewrite <- IH. reflexivity.
      * exists n. simpl. rewrite Hempty. simpl. rewrite <- IH. reflexivity.
    + exists n. simpl. rewrite <- IH. reflexivity.
Qed.

Lemma rstrip_no_trailing (s : string) : endswith c (rstrip c s) = false.
Proof.
  induction s as [| x s IH]; simpl; [reflexivity |].
  destruct (rstrip c s) as [| y r] eqn:Hr; simpl.
  - destruct (Ascii.eqb x c) eqn:Hx; simpl; [reflexivity | exact Hx].
  - exact IH.
Qed.

End Strings.

(** ** connect *)

Section Connect.

Local Open Scope string_scope.

Lemma nonempty_app_sep (id pass : string) : (id ++ ":" ++ pass =? "") = false.
Proof. destruct id; reflexivity. Qed.

Lemma eqb_empty_false (s : string) : s <> "" -> (s =? "") = false.
Proof. intros H. apply String.eqb_neq. exact H. Qed.

(** C6.  A credential string that is empty, has no [:], or has an empty
    half before or after its first [:] makes [connect] raise
    AuthenticationError; a string [id:pass] with both halves non-empty
    ([id] free of [:], so the split is at the first [:]) makes it return a
    client whose stored key id is [id] and whose stored key pass is [pass],
    character for character. *)
Theorem connect_credentials (api_key base_url : string) :
  ((api_key = ""
    \/ contains_char ":" api_key = false
    \/ (exists id pass,
          api_key = id ++ ":" ++ pass /\ contains_char ":" id = false
          /\ (id = "" \/ pass = "")))
   -> exists msg, connect api_key base_url = Raise (AuthenticationError msg))
  /\
  (forall id pass,
      api_key = id ++ ":" ++ pass -> contains_char ":" id = false ->
      id <> "" -> pass <> "" ->
      exists c,
        connect api_key base_url = Return c
        /\ _key_id c = id
        /\ _key_pass c = pass).
Proof.
  split.
  - intros [Hempty | [Hnosep | (id & pass & Hkey & Hid & Hhalf)]].
    + subst api_key. eexists. reflexivity.
    + unfold connect. rewrite Hnosep. rewrite orb_true_r. eexists. reflexivity.
    + subst api_key. unfold connect, truthy.
      rewrite nonempty_app_sep, contains_char_app, Hid. simpl.
      rewrite (split1_at_first ":" id pass Hid).
      destruct Hhalf as [H | H]; subst.
      * eexists. reflexivity.
      * rewrite orb_true_r. eexists. reflexivity.
  - intros id pass Hkey Hid Hidne Hpassne. subst api_key. unfold connect, truthy.
    rewrite nonempty_app_sep, contains_char_app, Hid. simpl.
    rewrite (split1_at_first ":" id pass Hid).
    rewrite (eqb_empty_false id Hidne), (eqb_empty_false pass Hpassne).
    eexists. split; [reflexivity |]. split; reflexivity.
Qed.

Lemma connect_credentials_witness :
  (exists msg, connect ":secret" default_base_url = Raise (AuthenticationError msg))
  /\ (exists c,
        connect "id:pa:ss" default_base_url = Return c
        /\ _key_id c = "id"
        /\ _key_pass c = "pa:ss").
Proof.
  split.
  - apply (proj1 (connect_credentials ":secret" default_base_url)).
    right. right. exists "", "secret". repeat split. left. reflexivity.
  - apply (proj2 (connect_credentials "id:pa:ss" default_base_url) "id" "pa:ss");
      [reflexivity | reflexivity | discriminate | discriminate].
Defined.

(** The three shapes named in C6 are all there is: a credential string is
    empty, free of [:], or [before ++ ":" ++ after] with [before] free of [:]. *)
Lemma credential_shapes (api_key : string) :
  api_key = ""
  \/ contains_char ":" api_key = false
  \/ exists id pass,
       api_key = id ++ ":" ++ pass /\ contains_char ":" id = false.
Proof.
  destruct (contains_char ":" api_key) eqn:H.
  - right. right. destruct (contains_char_split ":" api_key H) as (b & a & Hs & Hb).
    exists b, a. split; assumption.
  - right. left. reflexivity.
Qed.

(** C7, as the specification has it, fails: an upper-case base URL is
    stored as it is given. *)
Lemma connect_base_url_not_normalized :
  ~ (forall api_key base_url c,
        connect api_key base_url = Return c ->
        _base_url c = spec_normalize_base_url base_url).
Proof.
  intros H.
  specialize (H "id:pass" "HTTPS://ML-Arena.com " _ eq_refl).
  vm_compute in H. discriminate H.
Qed.

(** C7, amended.  On success the client stores the base URL with its
    trailing slashes cut off and nothing else changed: the input is the
    stored text followed by slashes only, and the stored text does not end
    in a slash. *)
Theorem connect_base_url (api_key base_url : string) (c : MLArenaClient) :
  connect api_key base_url = Return c ->
  _base_url c = rstrip "/" base_url
  /\ (exists n, base_url = _base_url c ++ repeat_char "/" n)
  /\ endswith "/" (_base_url c) = false.
Proof.
  unfold connect. intros H.
  destruct (negb (truthy (VStr api_key)) || negb (contains_char ":" api_key));
    [discriminate |].
  destruct (split1 ":" api_key) as [| id [| pass [| x l]]]; try discriminate.
  destruct (negb (truthy (VStr id)) || negb (truthy (VStr pass)));
    [discriminate |].
  injection H as <-. simpl.
  split; [reflexivity |]. split.
  - apply rstrip_prefix.
  - apply rstrip_no_trailing.
Qed.

Lemma connect_base_url_witness :
  _base_url (MLArenaClient_init "id" "pass" "HTTPS://ML-Arena.com ")
  = rstrip "/" "HTTPS://ML-Arena.com //"
  /\ (exists n, "HTTPS://ML-Arena.com //"
                = _base_url (MLArenaClient_init "id" "pass" "HTTPS://ML-Arena.com ")
                  ++ repeat_char "/" n)
  /\ endswith "/" (_base_url (MLArenaClient_init "id" "pass" "HTTPS://ML-Arena.com "))
     = false.
Proof.
  apply (connect_base_url "id:pass" "HTTPS://ML-Arena.com //"). reflexivity.
Defined.

End Connect.

(** ** Dictionaries *)

Lemma key_eqb_refl (k : key) : key_eqb k k = true.
Proof.
  destruct k; simpl; auto using Bool.eqb_reflx, Z.eqb_refl, String.eqb_refl.
Qed.

Ltac key_cases :=
  repeat match goal with
    | H : (_ =? _)%Z = true |- _ => apply Z.eqb_eq in H
    | H : (_ =? _)%Z = false |- _ => apply Z.eqb_neq in H
    | H : (_ =? _)%string = true |- _ => apply String.eqb_eq in H
    | H : (_ =? _)%string = false |- _ => apply String.eqb_neq in H
    | H : Bool.eqb _ _ = true |- _ => apply Bool.eqb_prop in H
    | H : Bool.eqb _ _ = false |- _ => apply Bool.eqb_false_iff in H
    | |- (_ =? _)%Z = false => apply Z.eqb_neq
    | |- (_ =? _)%string = false => apply String.eqb_neq
    | |- Bool.eqb _ _ = false => apply Bool.eqb_false_iff
    end.

(** Keys equal to a common key agree on every other key. *)
Lemma key_eqb_trans_false (a b c : key) :
  key_eqb a b = true -> key_eqb b c = false -> key_eqb a c = false.
Proof.
  destruct a, b, c; simpl; intros H1 H2; try reflexivity; try discriminate;
    key_cases; subst;
    repeat match goal with b : bool |- _ => destruct b end;
    try congruence; try lia.
Qed.

Lemma dict_lookup_set_same (k : key) (v : value) (d : list (key * value)) :
  dict_lookup k (dict_set k v d) = Some v.
Proof.
  induction d as [| [k' v'] d IH]; simpl.
  - rewrite key_eqb_refl. reflexivity.
  - destruct (key_eqb k' k) eqn:E; simpl; rewrite E; [reflexivity | exact IH].
Qed.

Lemma dict_lookup_set_other (k k2 : key) (v : value) (d : list (key * value)) :
  key_eqb k k2 = false ->
  dict_lookup k2 (dict_set k v d) = dict_lookup k2 d.
Proof.
  intros Hk. induction d as [| [k' v'] d IH]; simpl.
  - rewrite Hk. reflexivity.
  - destruct (key_eqb k' k) eqn:E; simpl.
    + rewrite (key_eqb_trans_false k' k k2 E Hk). reflexivity.
    + destruct (key_eqb k' k2); [reflexivity | exact IH].
Qed.

(** [d[k] = v] adds no key but [k]. *)
Lemma dict_set_keys (k k' : key) (v : value) (d : list (key * value)) :
  In k' (map fst (dict_set k v d)) -> k' = k \/ In k' (map fst d).
Proof.
  induction d as [| [k0 v0] d IH]; simpl.
  - intros [<- | []]. left. reflexivity.
  - destruct (key_eqb k0 k); simpl.
    + intros H. right. exact H.
    + intros [<- | H]; [right; left; reflexivity |].
      destruct (IH H) as [-> | Hin]; [left; reflexivity | right; right; exact Hin].
Qed.

(** [dict] over pairs whose first components are strings never fails; a
    lookup finds the value of the last pair with that name, and the keys
    are those there were and the names of the pairs. *)
Lemma dict_of_named_pairs (pairs : list (string * value)) :
  forall acc, exists m,
    dict_of_pairs_from acc (map (fun p => (VStr (fst p), snd p)) pairs) = Some m
    /\ (forall name,
           dict_lookup (KStr name) m
           = match last_value name pairs with
             | Some w => Some w
             | None => dict_lookup (KStr name) acc
             end)
    /\ (forall k, In k (map fst m) ->
                  In k (map fst acc)
                  \/ exists name, k = KStr name /\ In name (map fst pairs)).
Proof.
  induction pairs as [| [n v] pairs IH]; intros acc; simpl.
  - exists acc. split; [reflexivity |]. split; [reflexivity |].
    intros k Hin. left. exact Hin.
  - destruct (IH (dict_set (KStr n) v acc)) as (m & Hm & Hlook & Hkeys).
    exists m. split; [exact Hm |]. split.
    + intros name. rewrite Hlook.
      destruct (last_value name pairs); [reflexivity |].
      destruct (n =? name)%string eqn:E.
      * apply String.eqb_eq in E. subst. apply dict_lookup_set_same.
      * apply dict_lookup_set_other. exact E.
    + intros k Hin. destruct (Hkeys k Hin) as [Hacc | (name & -> & Hname)].
      * destruct (dict_set_keys _ _ _ _ Hacc) as [-> | Hold].
        -- right. exists n. split; [reflexivity | left; reflexivity].
        -- left. exact Hold.
      * right. exists name. split; [reflexivity | right; exact Hname].
Qed.

Lemma combine_names (cs : list string) :
  forall (row : list value) name,
    In name (map fst (combine cs row)) -> In name cs.
Proof.
  induction cs as [| c cs IH]; intros [| x row] name; simpl; try contradiction.
  intros [<- | H]; [left; reflexivity | right; exact (IH row name H)].
Qed.

Lemma zip_names (cs : list string) :
  forall row,
    zip (map VStr cs) row
    = map (fun p => (VStr (fst p), snd p)) (combine cs row).
Proof.
  unfold zip. induction cs as [| c cs IH]; intros [| x row]; simpl;
    try reflexivity.
  rewrite IH. reflexivity.
Qed.

Lemma last_value_in (name : string) (cs : list string) :
  forall row w,
    last_value name (combine cs row) = Some w ->
    exists j, nth_error cs j = Some name /\ nth_error row j = Some w.
Proof.
  induction cs as [| c cs IH]; intros [| x row] w; simpl; try discriminate.
  destruct (last_value name (combine cs row)) as [w' |] eqn:E.
  - intros H. injection H as <-. destruct (IH row w' E) as (j & Hc & Hr).
    exists (S j). split; assumption.
  - destruct (c =? name)%string eqn:Ec; [| discriminate].
    intros H. injection H as <-. apply String.eqb_eq in Ec. subst.
    exists 0. split; reflexivity.
Qed.

Lemma last_value_at (name : string) (cs : list string) :
  forall row j v,
    nth_error cs j = Some name -> nth_error row j = Some v ->
    (forall j', j < j' -> nth_error cs j' = Some name -> nth_error row j' = None) ->
    last_value name (combine cs row) = Some v.
Proof.
  induction cs as [| c cs IH]; intros row j v Hc Hr Hlast.
  - destruct j; discriminate.
  - destruct row as [| x row]; [destruct j; discriminate |].
    simpl. destruct j as [| j]; simpl in Hc, Hr.
    + injection Hc as ->. injection Hr as ->.
      destruct (last_value name (combine cs row)) as [w |] eqn:E.
      * destruct (last_value_in name cs row w E) as (j & Hc & Hr).
        specialize (Hlast (S j) (Nat.lt_0_succ j) Hc). simpl in Hlast.
        congruence.
      * rewrite String.eqb_refl. reflexivity.
    + rewrite (IH row j v Hc Hr); [reflexivity |].
      intros j' Hlt Hc'. apply (Hlast (S j')); [lia | exact Hc'].
Qed.

(** [dict(zip(cs, row))] for column names [cs] pairs them with [row]. *)
Lemma row_dict_pairs (cs : list string) (row : list value) :
  exists m,
    row_dict (VList (map VStr cs)) (VList row) = Return (VDict m)
    /\ pairs_columns cs row m.
Proof.
  unfold row_dict, dict_of_pairs. cbn [iter]. rewrite zip_names.
  destruct (dict_of_named_pairs (combine cs row) []) as (m & Hm & Hlook & Hkeys).
  exists m. rewrite Hm. split; [reflexivity |]. split; [| split].
  - intros j name v Hc Hr Hlast. rewrite Hlook.
    rewrite (last_value_at name cs row j v Hc Hr Hlast). reflexivity.
  - intros name Hnone. rewrite Hlook.
    destruct (last_value name (combine cs row)) as [w |] eqn:E; [| reflexivity].
    destruct (last_value_in name cs row w E) as (j & Hc & Hr).
    rewrite (Hnone j Hc) in Hr. discriminate.
  - intros k Hin. destruct (Hkeys k Hin) as [[] | (name & -> & Hname)].
    exists name. split; [reflexivity |]. exact (combine_names cs row name Hname).
Qed.

Lemma comprehension_rows (cs : list string) (rows : list (list value)) :
  exists mappings,
    comprehension (row_dict (VList (map VStr cs))) (map VList rows)
    = Return (map VDict mappings)
    /\ Forall2 (pairs_columns cs) rows mappings.
Proof.
  induction rows as [| row rows (ms & Hms & Hall)]; simpl.
  - exists []. split; [reflexivity | constructor].
  - destruct (row_dict_pairs cs row) as (m & Hm & Hpairs).
    exists (m :: ms). rewrite Hm, Hms. split; [reflexivity |].
    constructor; assumption.
Qed.

(** ** Tabular conversion *)

(** C5, as the specification has it, fails in its last part.  For a
    column-oriented value whose second row is one value short, the rows
    without pandas are [{name: x, score: 1}] and [{name: y}]; with pandas
    these rows go to [pd.DataFrame], which gives the second record a
    [score] of NaN.  So the frame does not hold the records of the list. *)
Lemma dataframe_fills_missing :
  _to_dataframe false ragged_board
  = Return (Plain (VList [VDict [(KStr "name", VStr "x"); (KStr "score", VInt 1)];
                          VDict [(KStr "name", VStr "y")]]))
  /\ _to_dataframe true ragged_board
     = Return (DataFrame [VDict [(KStr "name", VStr "x"); (KStr "score", VInt 1)];
                          VDict [(KStr "name", VStr "y")]])
  /\ pandas_frame [VDict [(KStr "name", VStr "x"); (KStr "score", VInt 1)];
                   VDict [(KStr "name", VStr "y")]]
     = Some {| frame_columns := [KStr "name"; KStr "score"];
               frame_cells := [[Cell (VStr "x"); Cell (VInt 1)];
                               [Cell (VStr "y"); NaN]] |}
  /\ ~ (forall data rows f,
          _to_dataframe true data = Return (DataFrame rows) ->
          pandas_frame rows = Some f ->
          frame_records f = plain_records rows).
Proof.
  split; [reflexivity |]. split; [reflexivity |]. split; [reflexivity |].
  intros H.
  specialize (H ragged_board _ _ eq_refl eq_refl).
  vm_compute in H. discriminate H.
Qed.

(** C5, amended.  [_to_dataframe] is a function of its argument (and of
    whether pandas can be imported) alone.  Without pandas: on a
    column-oriented value with column names [cs] and rows [rows] it yields
    one mapping per row, in the order of the rows, each pairing the column
    names with the values of its row position by position (the example of
    the specification is an instance), and a row-oriented list is returned
    as it is.  With pandas: the rows that would be returned are handed, as
    they are, to [pd.DataFrame]; an error of the conversion is the same
    error; and data that is neither a list nor column-oriented is returned
    as it is. *)
Theorem tabular_conversion :
  _to_dataframe false
    (VDict [(KStr "columns", VList [VStr "name"; VStr "score"]);
            (KStr "data", VList [VList [VStr "x"; VInt 1];
                                 VList [VStr "y"; VInt 2]])])
  = Return (Plain (VList [VDict [(KStr "name", VStr "x"); (KStr "score", VInt 1)];
                          VDict [(KStr "name", VStr "y"); (KStr "score", VInt 2)]]))
  /\ (forall d cs rows,
         dict_lookup (KStr "columns") d = Some (VList (map VStr cs)) ->
         dict_lookup (KStr "data") d = Some (VList (map VList rows)) ->
         exists mappings,
           _to_dataframe false (VDict d)
           = Return (Plain (VList (map VDict mappings)))
           /\ Forall2 (pairs_columns cs) rows mappings)
  /\ (forall l, _to_dataframe false (VList l) = Return (Plain (VList l)))
  /\ (forall data rows,
         is_tabular data = true ->
         _to_dataframe false data = Return (Plain (VList rows)) ->
         _to_dataframe true data = Return (DataFrame rows))
  /\ (forall data ex,
         _to_dataframe false data = Raise ex ->
         _to_dataframe true data = Raise ex)
  /\ (forall data,
         is_tabular data = false ->
         _to_dataframe true data = Return (Plain data)
         /\ _to_dataframe false data = Return (Plain data)).
Proof.
  split; [reflexivity |]. split; [| split; [| split; [| split]]].
  - intros d cs rows Hcols Hdata.
    destruct (comprehension_rows cs rows) as (ms & Hms & Hall).
    exists ms. split; [| exact Hall].
    unfold _to_dataframe, is_columnar, dict_mem, subscript.
    rewrite Hcols, Hdata. simpl. rewrite Hms. reflexivity.
  - intros l. reflexivity.
  - intros data rows Htab. unfold _to_dataframe.
    destruct data as [| b | z | s | l | d]; try discriminate.
    + intros H. injection H as <-. reflexivity.
    + cbn [is_tabular] in Htab. rewrite Htab.
      destruct (iter (subscript d "data")) as [items |]; [| discriminate].
      destruct (comprehension (row_dict (subscript d "columns")) items);
        [| discriminate].
      intros H. injection H as <-. reflexivity.
  - intros data ex. unfold _to_dataframe.
    destruct data as [| b | z | s | l | d]; try discriminate.
    destruct (is_columnar (VDict d)); [| discriminate].
    destruct (iter (subscript d "data")) as [items |]; [| intros H; exact H].
    destruct (comprehension (row_dict (subscript d "columns")) items);
      [discriminate | intros H; exact H].
  - intros data Htab. unfold _to_dataframe.
    destruct data as [| b | z | s | l | d]; try discriminate;
      try (split; reflexivity).
    cbn [is_tabular] in Htab. rewrite Htab. split; reflexivity.
Qed.

Lemma tabular_conversion_witness :
  (exists mappings,
      _to_dataframe false
        (VDict [(KStr "columns", VList (map VStr ["name"; "score"]%string));
                (KStr "data", VList (map VList [[VStr "x"; VInt 1];
                                                [VStr "y"; VInt 2]]))])
      = Return (Plain (VList (map VDict mappings)))
      /\ Forall2 (pairs_columns ["name"; "score"]%string)
           [[VStr "x"; VInt 1]; [VStr "y"; VInt 2]] mappings)
  /\ _to_dataframe true (VList [VDict [(KStr "name", VStr "x")]])
     = Return (DataFrame [VDict [(KStr "name", VStr "x")]]).
Proof.
  split.
  - apply (proj1 (proj2 tabular_conversion)); reflexivity.
  - apply (proj1 (proj2 (proj2 (proj2 tabular_conversion)))); reflexivity.
Defined.

(** ** Staging and the finally clause *)

Lemma extend_nothing (s : state) : extend s [] 0 [] = s.
Proof.
  destruct s. unfold extend. simpl.
  rewrite !app_nil_r, Nat.add_0_r. reflexivity.
Qed.

(** The loop over [files]: the paths before the first missing one are
    opened and staged, in order; the outcome is the exception for the first
    missing path, if there is one. *)
Lemma stage_files_run (e : env) (files : list string) :
  forall s,
    stage_files e files s
    = (match first_missing e files with
       | Some p => Raise (file_not_found p)
       | None => Return tt
       end,
       extend s (opens (existing_prefix e files) (next_fd s))
                (length (existing_prefix e files))
                (entries (existing_prefix e files) (next_fd s))).
Proof.
  induction files as [| p files IH]; intros s.
  - simpl. rewrite extend_nothing. reflexivity.
  - cbn [stage_files first_missing existing_prefix].
    destruct (isfile e p); cbn [negb].
    + unfold bind at 1. cbn [py_open].
      unfold bind at 1. unfold append_multipart at 1.
      cbn [set_multipart_files]. rewrite IH.
      unfold extend. cbn [self trace next_fd multipart_files tmp_dir
                          opens entries length].
      rewrite <- !app_assoc. cbn [app].
      rewrite Nat.add_succ_r. reflexivity.
    + unfold raise. rewrite extend_nothing. reflexivity.
Qed.

Lemma record_nothing (s : state) : record_events s [] = s.
Proof.
  destruct s. unfold record_events. simpl. rewrite app_nil_r. reflexivity.
Qed.

Lemma close_all_run (fs : list multipart) :
  forall s, close_all fs s = (Return tt, record_events s (closes fs)).
Proof.
  induction fs as [| [field [name h]] fs IH]; intros s.
  - simpl. rewrite record_nothing. reflexivity.
  - cbn [close_all]. unfold bind, emit. rewrite IH.
    unfold record_events.
    cbn [self trace next_fd multipart_files tmp_dir closes map snd].
    rewrite <- !app_assoc. reflexivity.
Qed.

Lemma submit_finally_run (s : state) :
  submit_finally s = (Return tt, record_events s (finally_events s)).
Proof.
  unfold submit_finally, bind. rewrite close_all_run.
  unfold finally_events. cbn [record_events tmp_dir].
  destruct (tmp_dir s) as [d |].
  - destruct (truthy (VStr d)).
    + unfold emit, record_events.
      cbn [self trace next_fd multipart_files tmp_dir].
      rewrite <- app_assoc. reflexivity.
    + unfold ret, record_events.
      cbn [self trace next_fd multipart_files tmp_dir].
      rewrite app_nil_r. reflexivity.
  - unfold ret, record_events.
    cbn [self trace next_fd multipart_files tmp_dir].
    rewrite app_nil_r. reflexivity.
Qed.

(** The [finally] clause of [submit] does not raise: the outcome of
    [submit] is that of its [try] block. *)
Lemma try_submit_finally {A} (body : M A) (s : state) :
  try_finally body submit_finally s
  = (fst (body s),
     record_events (snd (body s)) (finally_events (snd (body s)))).
Proof.
  unfold try_finally. destruct (body s) as [r s1].
  rewrite submit_finally_run. reflexivity.
Qed.

(** The [try] block after staging: the request goes out, the transport
    answers or raises, the answer is handled. *)
Lemma submit_body_run (e : env) (competition : value)
  (agent : option agent_class) (files : option (list string))
  (agent_name : value) (s : state) :
  submit_body e competition agent files agent_name s
  = match stage e agent files s with
    | (Raise ex, s1) => (Raise ex, s1)
    | (Return _, s1) =>
        let req := submit_request (self s1) competition (multipart_files s1)
                                  agent_name in
        match send e req with
        | Raise ex => (Raise ex, record_events s1 [ERequest req])
        | Return resp =>
            submit_response competition resp (record_events s1 [ERequest req])
        end
    end.
Proof.
  unfold submit_body. unfold bind at 1.
  destruct (stage e agent files s) as [[u | ex] s1]; [| reflexivity].
  unfold bind at 1. unfold get_self at 1.
  unfold bind at 1. unfold ret at 1.
  unfold bind at 1. unfold http at 1. unfold bind at 1.
  unfold emit at 1. unfold lift at 1.
  fold (record_events s1
          [ERequest (submit_request (self s1) competition (multipart_files s1)
                                    agent_name)]).
  cbv zeta.
  destruct (send e (submit_request (self s1) competition (multipart_files s1)
                                   agent_name)); reflexivity.
Qed.

(** ** Handling the response of a submission *)

Lemma success_is_no_error (code : Z) :
  is_success code = true ->
  (code =? 401)%Z = false /\ (code =? 403)%Z = false /\ (code =? 404)%Z = false.
Proof.
  unfold is_success, success_codes. simpl. intros H.
  repeat match type of H with
         | (_ || _) = true => apply orb_true_iff in H; destruct H as [H | H]
         end;
    try discriminate; apply Z.eqb_eq in H; subst; repeat split; reflexivity.
Qed.

Lemma handle_response_success (resp : response) :
  is_success (status_code resp) = true -> _handle_response resp = Return resp.
Proof.
  intros H. destruct (success_is_no_error _ H) as (H1 & H3 & H4).
  unfold _handle_response. rewrite H1, H3, H4. reflexivity.
Qed.

Lemma json_get_dict (resp : response) (d : list (key * value))
  (k : string) (default : value) :
  json resp = Some (VDict d) ->
  json_get resp k default = Return (dict_get d k default).
Proof.
  intros H. unfold json_get, resp_json. rewrite H. reflexivity.
Qed.

(** Handling the response touches nothing but the two defaults of [self]. *)
Lemma submit_response_frame (competition : value) (resp : response) (s : state) :
  let s' := snd (submit_response competition resp s) in
  trace s' = trace s /\ next_fd s' = next_fd s
  /\ multipart_files s' = multipart_files s /\ tmp_dir s' = tmp_dir s.
Proof.
  unfold submit_response, bind, lift.
  destruct (_handle_response resp) as [r | ex]; [| simpl; auto].
  destruct (negb (is_success (status_code resp))).
  - destruct (json_get resp "error" (VStr (text resp))); simpl; auto.
  - destruct (resp_json resp) as [result | ex]; [| simpl; auto].
    destruct (py_get result "agent_id" VNone); simpl; auto.
Qed.

(** A submission that is answered with an exception leaves [self] as it was. *)
Lemma submit_response_raises (competition : value) (resp : response)
  (s : state) (ex : exn) :
  fst (submit_response competition resp s) = Raise ex ->
  snd (submit_response competition resp s) = s.
Proof.
  unfold submit_response, bind, lift.
  destruct (_handle_response resp) as [r | ex']; [| reflexivity].
  destruct (negb (is_success (status_code resp))).
  - destruct (json_get resp "error" (VStr (text resp))); reflexivity.
  - destruct (resp_json resp) as [result | ex']; [| reflexivity].
    destruct (py_get result "agent_id" VNone); [| reflexivity].
    simpl. discriminate.
Qed.

(** A submission that returns had a success status and a body that decodes
    to a dict; it returns that dict and records its [agent_id] entry (None
    when there is none) and the competition. *)
Lemma submit_response_returns (competition : value) (resp : response)
  (s : state) (v : value) :
  fst (submit_response competition resp s) = Return v ->
  exists d,
    v = VDict d /\ json resp = Some (VDict d)
    /\ is_success (status_code resp) = true
    /\ self (snd (submit_response competition resp s))
       = {| _key_id := _key_id (self s);
            _key_pass := _key_pass (self s);
            _base_url := _base_url (self s);
            _last_agent_id := dict_get d "agent_id" VNone;
            _last_competition := competition |}.
Proof.
  unfold submit_response, bind, lift.
  destruct (_handle_response resp) as [r | ex]; [| discriminate].
  destruct (is_success (status_code resp)); cbn [negb].
  - unfold resp_json. destruct (json resp) as [result |]; [| discriminate].
    destruct result as [| b | z | str | l | d]; try discriminate.
    simpl. intros H. injection H as <-. exists d. repeat split; reflexivity.
  - destruct (json_get resp "error" (VStr (text resp))); discriminate.
Qed.

(** ** Running submit *)

Lemma stage_agent_run (e : env) (a : agent_class) (s : state) :
  stage_agent e a s
  = match getsource a with
    | None => (Raise OSError, s)
    | Some source =>
        (Return tt,
         {| self := self s;
            trace := trace s ++ agent_events e source (next_fd s);
            next_fd := S (S (next_fd s));
            multipart_files :=
              multipart_files s ++ [("files", ("agent.py"%string, S (next_fd s)))];
            tmp_dir := Some (mkdtemp e) |})
    end.
Proof.
  unfold stage_agent, bind, lift.
  destruct (getsource a) as [source |]; [| reflexivity].
  unfold agent_events, emit, set_tmp_dir, py_open, append_multipart,
    set_multipart_files.
  cbn [self trace next_fd multipart_files tmp_dir].
  rewrite <- !app_assoc. reflexivity.
Qed.

Lemma first_missing_none (e : env) (files : list string) :
  forallb (isfile e) files = true ->
  first_missing e files = None /\ existing_prefix e files = files.
Proof.
  induction files as [| p files IH]; simpl; intros H; [split; reflexivity |].
  apply andb_true_iff in H. destruct H as [Hp Hrest].
  rewrite Hp. destruct (IH Hrest) as [-> ->]. split; reflexivity.
Qed.


Lemma stage_self (e : env) (agent : option agent_class)
  (files : option (list string)) (s : state) :
  self (snd (stage e agent files s)) = self s.
Proof.
  unfold stage. destruct agent as [a |].
  - rewrite stage_agent_run. destruct (getsource a); reflexivity.
  - destruct files as [fs |]; [| reflexivity].
    rewrite stage_files_run. reflexivity.
Qed.

Lemma stage_succeeds (e : env) (agent : option agent_class)
  (files : option (list string)) (s : state) :
  staging_ok e agent files = true ->
  fst (stage e agent files s) = Return tt.
Proof.
  unfold staging_ok, stage. destruct agent as [a |], files as [fs |];
    try discriminate.
  - rewrite stage_agent_run. destruct (getsource a); [reflexivity | discriminate].
  - intros H. rewrite stage_files_run.
    destruct (first_missing_none e fs H) as [-> _]. reflexivity.
Qed.

(** With one of [agent] and [files], [submit] is its [try] statement. *)
Lemma submit_one_mode (e : env) (competition : value)
  (agent : option agent_class) (files : option (list string))
  (agent_name : value) (s : state) :
  match agent, files with
  | Some _, None | None, Some _ => True
  | _, _ => False
  end ->
  submit e competition agent files agent_name s
  = (fst (submit_body e competition agent files agent_name (enter_submit s)),
     let s1 := snd (submit_body e competition agent files agent_name
                                (enter_submit s)) in
     record_events s1 (finally_events s1)).
Proof.
  intros H. unfold submit.
  destruct agent as [a |], files as [fs |]; try contradiction;
    (unfold bind at 1; unfold set_multipart_files at 1;
     unfold bind at 1; unfold set_tmp_dir at 1;
     cbn [self trace next_fd multipart_files tmp_dir];
     fold (enter_submit s); apply try_submit_finally).
Qed.

Lemma staging_ok_one_mode (e : env) (agent : option agent_class)
  (files : option (list string)) :
  staging_ok e agent files = true ->
  match agent, files with
  | Some _, None | None, Some _ => True
  | _, _ => False
  end.
Proof.
  unfold staging_ok. destruct agent, files; try discriminate; intros _; exact I.
Qed.

(** When staging succeeds and the server answers [resp] to whatever it is
    sent, the outcome of [submit] is that of handling [resp]. *)
Lemma submit_answered (e : env) (competition : value)
  (agent : option agent_class) (files : option (list string))
  (agent_name : value) (s : state) (resp : response) :
  staging_ok e agent files = true ->
  (forall r, send e r = Return resp) ->
  exists s1,
    fst (submit e competition agent files agent_name s)
    = fst (submit_response competition resp s1).
Proof.
  intros Hok Hsend.
  rewrite (submit_one_mode e competition agent files agent_name s
             (staging_ok_one_mode e agent files Hok)).
  cbn [fst]. rewrite submit_body_run.
  pose proof (stage_succeeds e agent files (enter_submit s) Hok) as Hstage.
  destruct (stage e agent files (enter_submit s)) as [[u | ex] s1];
    [| discriminate].
  cbv zeta. rewrite Hsend. eexists. reflexivity.
Qed.

(** A [submit] that returns has handled a response and returned what the
    handling returned; [self] is as the handling left it. *)
Lemma submit_returns (e : env) (competition : value)
  (agent : option agent_class) (files : option (list string))
  (agent_name : value) (s : state) (v : value) :
  fst (submit e competition agent files agent_name s) = Return v ->
  exists resp s1,
    self s1 = self s
    /\ fst (submit_response competition resp s1) = Return v
    /\ self (snd (submit e competition agent files agent_name s))
       = self (snd (submit_response competition resp s1)).
Proof.
  destruct agent as [a |], files as [fs |]; try discriminate.
  - rewrite submit_one_mode by exact I. cbn [fst snd]. cbv zeta.
    rewrite submit_body_run.
    pose proof (stage_self e (Some a) None (enter_submit s)) as Hself.
    destruct (stage e (Some a) None (enter_submit s)) as [[u | ex] s1];
      [| discriminate].
    cbv zeta.
    destruct (send e _) as [resp | ex]; [| discriminate].
    intros H. exists resp. eexists. split; [| split; [exact H | reflexivity]].
    exact Hself.
  - rewrite submit_one_mode by exact I. cbn [fst snd]. cbv zeta.
    rewrite submit_body_run.
    pose proof (stage_self e None (Some fs) (enter_submit s)) as Hself.
    destruct (stage e None (Some fs) (enter_submit s)) as [[u | ex] s1];
      [| discriminate].
    cbv zeta.
    destruct (send e _) as [resp | ex]; [| discriminate].
    intros H. exists resp. eexists. split; [| split; [exact H | reflexivity]].
    exact Hself.
Qed.

(** A [submit] that raises leaves [self] as it was. *)
Lemma submit_raises_self (e : env) (competition : value)
  (agent : option agent_class) (files : option (list string))
  (agent_name : value) (s : state) (ex : exn) :
  fst (submit e competition agent files agent_name s) = Raise ex ->
  self (snd (submit e competition agent files agent_name s)) = self s.
Proof.
  destruct agent as [a |], files as [fs |]; try reflexivity.
  - rewrite submit_one_mode by exact I. cbn [fst snd]. cbv zeta.
    rewrite submit_body_run.
    pose proof (stage_self e (Some a) None (enter_submit s)) as Hself.
    destruct (stage e (Some a) None (enter_submit s)) as [[u | ex'] s1];
      [| intros _; exact Hself].
    cbv zeta.
    destruct (send e _) as [resp | ex']; [| intros _; exact Hself].
    intros H. cbn [record_events self].
    rewrite (submit_response_raises _ _ _ _ H). exact Hself.
  - rewrite submit_one_mode by exact I. cbn [fst snd]. cbv zeta.
    rewrite submit_body_run.
    pose proof (stage_self e None (Some fs) (enter_submit s)) as Hself.
    destruct (stage e None (Some fs) (enter_submit s)) as [[u | ex'] s1];
      [| intros _; exact Hself].
    cbv zeta.
    destruct (send e _) as [resp | ex']; [| intros _; exact Hself].
    intros H. cbn [record_events self].
    rewrite (submit_response_raises _ _ _ _ H). exact Hself.
Qed.

(** ** The response of a submission (C1) *)

(** C1 (the code departs from the specification).  [submit("comp1",
    files=["agent.py"])] is answered HTTP 500 with the body "Internal
    Server Error", which is not JSON.  The specification, and the docstring
    of [submit], say SubmissionError carrying the raw body; the code calls
    [resp.json()] before it gets to its fallback [resp.text], so what comes
    out is the decoding error of the transport library, which is no
    SubmissionError and no error of the SDK at all. *)
Lemma submit_undecodable_body :
  staging_ok (mock_env plain_500) None (Some ["agent.py"%string]) = true
  /\ status_code plain_500 = 500%Z
  /\ text plain_500 = "Internal Server Error"%string
  /\ json plain_500 = None
  /\ fst (submit (mock_env plain_500) (VStr "comp1") None
                 (Some ["agent.py"%string]) VNone (initial_state example_client))
     = Raise JSONDecodeError
  /\ is_MLArenaError JSONDecodeError = false
  /\ ~ (exists msg,
          fst (submit (mock_env plain_500) (VStr "comp1") None
                      (Some ["agent.py"%string]) VNone
                      (initial_state example_client))
          = Raise (SubmissionError msg)).
Proof.
  repeat split; try reflexivity.
  intros [msg H]. vm_compute in H. discriminate H.
Qed.

(** The statuses that [submit] takes for success are 200, 201 and 202,
    and no other. *)
Lemma is_success_codes (code : Z) :
  is_success code = true <-> (code = 200 \/ code = 201 \/ code = 202)%Z.
Proof.
  unfold is_success, success_codes. cbn [existsb].
  rewrite !orb_true_iff, !Z.eqb_eq. intuition discriminate.
Qed.

Lemma is_success_other (code : Z) :
  code <> 200%Z -> code <> 201%Z -> code <> 202%Z -> is_success code = false.
Proof.
  intros H0 H1 H2. destruct (is_success code) eqn:E; [| reflexivity].
  apply is_success_codes in E. intuition congruence.
Qed.

(** X21.  When staging succeeds and the POST returns [resp]: status 401
    raises AuthenticationError; and when the body of [resp] decodes to a
    JSON object [d], status 403 raises AuthenticationError with the [error]
    entry of [d] (or "Access denied"), status 404 raises
    CompetitionNotFoundError with the [error] entry of [d] (or "Not
    found"), any status other than 200, 201, 202, 401, 403 and 404 raises
    SubmissionError with the [error] entry of [d], or the raw body when
    there is none, and status 200, 201 or 202 returns [d]. *)
Theorem submit_response_mapping (e : env) (competition : value)
  (agent : option agent_class) (files : option (list string))
  (agent_name : value) (s : state) (resp : response) :
  staging_ok e agent files = true ->
  (forall r, send e r = Return resp) ->
  let out := fst (submit e competition agent files agent_name s) in
  (status_code resp = 401%Z ->
   out = Raise (AuthenticationError
                  (VStr "Invalid API credentials. Check your key_id and key_pass.")))
  /\ (forall d, json resp = Some (VDict d) ->
        (status_code resp = 403%Z ->
         out = Raise (AuthenticationError (dict_get d "error" (VStr "Access denied"))))
        /\ (status_code resp = 404%Z ->
            out = Raise (CompetitionNotFoundError
                           (dict_get d "error" (VStr "Not found"))))
        /\ (status_code resp <> 401%Z -> status_code resp <> 403%Z ->
            status_code resp <> 404%Z ->
            status_code resp <> 200%Z -> status_code resp <> 201%Z ->
            status_code resp <> 202%Z ->
            out = Raise (SubmissionError
                           (fjoin [FLit "Submission failed: ";
                                   interp (dict_get d "error" (VStr (text resp)))])))
        /\ (status_code resp = 200%Z \/ status_code resp = 201%Z
            \/ status_code resp = 202%Z ->
            out = Return (VDict d))).
Proof.
  intros Hok Hsend out.
  destruct (submit_answered e competition agent files agent_name s resp Hok Hsend)
    as [s1 Hout].
  subst out. rewrite Hout. clear Hout.
  unfold submit_response, bind, lift, _handle_response.
  split.
  - intros ->. reflexivity.
  - intros d Hd. rewrite !(json_get_dict resp d _ _ Hd).
    unfold resp_json. rewrite Hd.
    split; [| split; [| split]].
    + intros ->. reflexivity.
    + intros ->. reflexivity.
    + intros H1 H3 H4 H200 H201 H202.
      rewrite (is_success_other _ H200 H201 H202).
      apply Z.eqb_neq in H1, H3, H4. rewrite H1, H3, H4. reflexivity.
    + intros Hcode. apply is_success_codes in Hcode.
      destruct (success_is_no_error _ Hcode) as (H1 & H3 & H4).
      rewrite H1, H3, H4, Hcode. reflexivity.
Qed.

Lemma submit_response_mapping_witness :
  fst (submit (mock_env failed_500) (VStr "comp1") None
              (Some ["agent.py"%string]) VNone (initial_state example_client))
  = Raise (SubmissionError
             [FLit ("Submission failed: " ++ json_object [("detail", "boom")])%string])
  /\ fst (submit (mock_env created_201) (VStr "comp1") None
                 (Some ["agent.py"%string]) VNone (initial_state example_client))
     = Return (VDict [(KStr "agent_id", VStr "A1"); (KStr "status", VStr "queued")]).
Proof.
  split.
  - apply (proj2 (submit_response_mapping (mock_env failed_500) (VStr "comp1")
                    None (Some ["agent.py"%string]) VNone
                    (initial_state example_client) failed_500
                    eq_refl (fun _ => eq_refl))
             [(KStr "detail", VStr "boom")] eq_refl);
      discriminate.
  - apply (proj2 (submit_response_mapping (mock_env created_201) (VStr "comp1")
                    None (Some ["agent.py"%string]) VNone
                    (initial_state example_client) created_201
                    eq_refl (fun _ => eq_refl))
             [(KStr "agent_id", VStr "A1"); (KStr "status", VStr "queued")]
             eq_refl).
    right. left. reflexivity.
Defined.

(** ** status, leaderboard and competitions *)

Lemma http_run (e : env) (r : request) (s : state) :
  http e r s = (send e r, record_events s [ERequest r]).
Proof.
  unfold http, bind, emit, lift. fold (record_events s [ERequest r]).
  destruct (send e r); reflexivity.
Qed.

(** Without an agent identifier [status] raises and does nothing else;
    with one it sends its request and handles the answer. *)
Lemma status_run (e : env) (agent_id : value) (s : state) :
  status e agent_id s
  = let aid := py_or agent_id (_last_agent_id (self s)) in
    if is_None aid then
      (Raise (SubmissionError
                [FLit "No agent_id provided and no previous submission found"]),
       s)
    else
      (match send e (status_request (self s) aid) with
       | Raise ex => Raise ex
       | Return resp =>
           match _handle_response resp with
           | Raise ex => Raise ex
           | Return _ =>
               match raise_for_status resp with
               | Raise ex => Raise ex
               | Return _ => resp_json resp
               end
           end
       end,
       record_events s [ERequest (status_request (self s) aid)]).
Proof.
  unfold status. unfold bind at 1. unfold get_self at 1. cbv zeta.
  destruct (is_None (py_or agent_id (_last_agent_id (self s)))); [reflexivity |].
  unfold bind at 1. rewrite http_run.
  destruct (send e _) as [resp | ex]; [| reflexivity].
  unfold bind, lift.
  destruct (_handle_response resp); [| reflexivity].
  destruct (raise_for_status resp); [| reflexivity].
  destruct (resp_json resp); reflexivity.
Qed.

Lemma leaderboard_run (e : env) (competition : value) (s : state) :
  leaderboard e competition s
  = let comp := py_or competition (_last_competition (self s)) in
    if is_None comp then
      (Raise (SubmissionError
                [FLit "No competition specified and no previous submission found"]),
       s)
    else
      (match send e (leaderboard_request (self s) comp) with
       | Raise ex => Raise ex
       | Return resp =>
           match _handle_response resp with
           | Raise ex => Raise ex
           | Return _ =>
               match raise_for_status resp with
               | Raise ex => Raise ex
               | Return _ =>
                   match resp_json resp with
                   | Raise ex => Raise ex
                   | Return data => _to_dataframe (pandas_installed e) data
                   end
               end
           end
       end,
       record_events s [ERequest (leaderboard_request (self s) comp)]).
Proof.
  unfold leaderboard. unfold bind at 1. unfold get_self at 1. cbv zeta.
  destruct (is_None (py_or competition (_last_competition (self s))));
    [reflexivity |].
  unfold bind at 1. rewrite http_run.
  destruct (send e _) as [resp | ex]; [| reflexivity].
  unfold bind, lift.
  destruct (_handle_response resp); [| reflexivity].
  destruct (raise_for_status resp); [| reflexivity].
  destruct (resp_json resp); [| reflexivity].
  destruct (_to_dataframe (pandas_installed e) _); reflexivity.
Qed.

Lemma competitions_run (e : env) (s : state) :
  competitions e s
  = (match send e (competitions_request (self s)) with
     | Raise ex => Raise ex
     | Return resp =>
         match raise_for_status resp with
         | Raise ex => Raise ex
         | Return _ =>
             match resp_json resp with
             | Raise ex => Raise ex
             | Return data => _to_dataframe (pandas_installed e) data
             end
         end
     end,
     record_events s [ERequest (competitions_request (self s))]).
Proof.
  unfold competitions. unfold bind at 1. unfold get_self at 1.
  unfold bind at 1. rewrite http_run.
  destruct (send e _) as [resp | ex]; [| reflexivity].
  unfold bind, lift.
  destruct (raise_for_status resp); [| reflexivity].
  destruct (resp_json resp); [| reflexivity].
  destruct (_to_dataframe (pandas_installed e) _); reflexivity.
Qed.

Lemma py_or_default (b : value) : py_or VNone b = b.
Proof. reflexivity. Qed.

Lemma is_None_false (v : value) : v <> VNone -> is_None v = false.
Proof. destruct v; simpl; congruence. Qed.

(** ** HTTP 404 (C2) *)

(** An exception of [_handle_response] is the outcome of [submit]. *)
Lemma submit_handle_raises (e : env) (competition : value)
  (agent : option agent_class) (files : option (list string))
  (agent_name : value) (s : state) (resp : response) (ex : exn) :
  staging_ok e agent files = true ->
  (forall r, send e r = Return resp) ->
  _handle_response resp = Raise ex ->
  fst (submit e competition agent files agent_name s) = Raise ex.
Proof.
  intros Hok Hsend Hhandle.
  destruct (submit_answered e competition agent files agent_name s resp Hok Hsend)
    as [s1 ->].
  unfold submit_response, bind, lift. rewrite Hhandle. reflexivity.
Qed.

(** C2, as the specification has it, fails for [competitions]: on HTTP 404
    it raises the HTTP error of the transport library. *)
Lemma competitions_404_not_mapped :
  fst (competitions (mock_env not_found_404) (initial_state example_client))
  = Raise (HTTPError 404)
  /\ fst (competitions (mock_env not_found_404) (initial_state example_client))
     <> Raise (CompetitionNotFoundError (VStr "no such comp")).
Proof.
  split; [reflexivity | vm_compute; discriminate].
Qed.

(** C2, amended.  When the server answers HTTP 404 with body
    [{"error": "no such comp"}], each of [submit], [status] and
    [leaderboard] that gets as far as its request raises
    CompetitionNotFoundError("no such comp"); [competitions] raises the
    HTTP error of the transport library. *)
Theorem not_found_mapping (e : env) (resp : response) :
  (forall r, send e r = Return resp) ->
  status_code resp = 404%Z ->
  json resp = Some (VDict [(KStr "error", VStr "no such comp")]) ->
  (forall competition agent files agent_name s,
      staging_ok e agent files = true ->
      fst (submit e competition agent files agent_name s)
      = Raise (CompetitionNotFoundError (VStr "no such comp")))
  /\ (forall agent_id s,
         py_or agent_id (_last_agent_id (self s)) <> VNone ->
         fst (status e agent_id s)
         = Raise (CompetitionNotFoundError (VStr "no such comp")))
  /\ (forall competition s,
         py_or competition (_last_competition (self s)) <> VNone ->
         fst (leaderboard e competition s)
         = Raise (CompetitionNotFoundError (VStr "no such comp")))
  /\ (forall s, fst (competitions e s) = Raise (HTTPError 404)).
Proof.
  intros Hsend Hcode Hbody.
  assert (Hhandle : _handle_response resp
                    = Raise (CompetitionNotFoundError (VStr "no such comp"))).
  { unfold _handle_response. rewrite Hcode.
    rewrite !(json_get_dict resp _ _ _ Hbody). reflexivity. }
  split; [| split; [| split]].
  - intros competition agent files agent_name s Hok.
    exact (submit_handle_raises e competition agent files agent_name s resp _
             Hok Hsend Hhandle).
  - intros agent_id s Hid. rewrite status_run. cbv zeta.
    rewrite (is_None_false _ Hid). cbn [fst].
    rewrite Hsend, Hhandle. reflexivity.
  - intros competition s Hcomp. rewrite leaderboard_run. cbv zeta.
    rewrite (is_None_false _ Hcomp). cbn [fst].
    rewrite Hsend, Hhandle. reflexivity.
  - intros s. rewrite competitions_run. cbn [fst].
    rewrite Hsend. unfold raise_for_status. rewrite Hcode. reflexivity.
Qed.

Lemma not_found_mapping_witness :
  fst (submit (mock_env not_found_404) (VStr "comp1") None
              (Some ["agent.py"%string]) VNone (initial_state example_client))
  = Raise (CompetitionNotFoundError (VStr "no such comp"))
  /\ fst (status (mock_env not_found_404) (VStr "A1")
                 (initial_state example_client))
     = Raise (CompetitionNotFoundError (VStr "no such comp"))
  /\ fst (leaderboard (mock_env not_found_404) (VStr "comp1")
                      (initial_state example_client))
     = Raise (CompetitionNotFoundError (VStr "no such comp")).
Proof.
  pose proof (not_found_mapping (mock_env not_found_404) not_found_404
                (fun _ => eq_refl) eq_refl eq_refl) as (Hsubmit & Hstatus & Hboard & _).
  split; [| split].
  - apply Hsubmit. reflexivity.
  - apply Hstatus. discriminate.
  - apply Hboard. discriminate.
Defined.

(** ** Session defaults (C3, C10) *)

(** A [submit] that returns, returns a dict, and has stored its [agent_id]
    entry (None when there is none) and the competition in [self]. *)
Lemma submit_stores (e : env) (competition : value)
  (agent : option agent_class) (files : option (list string))
  (agent_name : value) (s : state) (body : value) :
  fst (submit e competition agent files agent_name s) = Return body ->
  exists d,
    body = VDict d
    /\ self (snd (submit e competition agent files agent_name s))
       = {| _key_id := _key_id (self s);
            _key_pass := _key_pass (self s);
            _base_url := _base_url (self s);
            _last_agent_id := dict_get d "agent_id" VNone;
            _last_competition := competition |}.
Proof.
  intros Hret.
  destruct (submit_returns e competition agent files agent_name s body Hret)
    as (resp & s1 & Hself1 & Hresp & Hself).
  destruct (submit_response_returns competition resp s1 body Hresp)
    as (d & Hbody & _ & _ & Hrec).
  exists d. split; [exact Hbody |].
  rewrite Hself, Hrec, Hself1. reflexivity.
Qed.

Lemma status_without_default (e : env) (s : state) :
  _last_agent_id (self s) = VNone ->
  status e VNone s
  = (Raise (SubmissionError
              [FLit "No agent_id provided and no previous submission found"]),
     s).
Proof.
  intros H. rewrite status_run. cbv zeta. rewrite py_or_default, H.
  reflexivity.
Qed.

Lemma leaderboard_without_default (e : env) (s : state) :
  _last_competition (self s) = VNone ->
  leaderboard e VNone s
  = (Raise (SubmissionError
              [FLit "No competition specified and no previous submission found"]),
     s).
Proof.
  intros H. rewrite leaderboard_run. cbv zeta. rewrite py_or_default, H.
  reflexivity.
Qed.

(** C3.  A [submit] that returns has stored the agent identifier of the
    returned body and its competition argument in [self]; from then on
    [status()] sends its GET to [/status/] followed by that identifier and
    [leaderboard()] sends its GET to [/leaderboard/] followed by that
    competition.  While no identifier is stored (as in a new client, and a
    [submit] that raises stores none) [status()] raises SubmissionError
    without sending anything, and so does [leaderboard()] while no
    competition is stored. *)
Theorem session_defaults :
  (forall e e' competition agent files agent_name s body,
      fst (submit e competition agent files agent_name s) = Return body ->
      let s' := snd (submit e competition agent files agent_name s) in
      exists d,
        body = VDict d
        /\ _last_agent_id (self s') = dict_get d "agent_id" VNone
        /\ _last_competition (self s') = competition
        /\ (dict_get d "agent_id" VNone <> VNone ->
            trace (snd (status e' VNone s'))
            = trace s' ++ [ERequest (status_request (self s')
                                       (dict_get d "agent_id" VNone))])
        /\ (competition <> VNone ->
            trace (snd (leaderboard e' VNone s'))
            = trace s' ++ [ERequest (leaderboard_request (self s') competition)]))
  /\ (forall key_id key_pass base_url,
         _last_agent_id (MLArenaClient_init key_id key_pass base_url) = VNone
         /\ _last_competition (MLArenaClient_init key_id key_pass base_url) = VNone)
  /\ (forall e competition agent files agent_name s ex,
         fst (submit e competition agent files agent_name s) = Raise ex ->
         self (snd (submit e competition agent files agent_name s)) = self s)
  /\ (forall e s,
         _last_agent_id (self s) = VNone ->
         status e VNone s
         = (Raise (SubmissionError
                     [FLit "No agent_id provided and no previous submission found"]),
            s))
  /\ (forall e s,
         _last_competition (self s) = VNone ->
         leaderboard e VNone s
         = (Raise (SubmissionError
                     [FLit "No competition specified and no previous submission found"]),
            s)).
Proof.
  split; [| split; [| split; [| split]]].
  - intros e e' competition agent files agent_name s body Hret s'.
    destruct (submit_stores e competition agent files agent_name s body Hret)
      as (d & Hbody & Hs').
    fold s' in Hs'.
    exists d. split; [exact Hbody |].
    split; [rewrite Hs'; reflexivity |].
    split; [rewrite Hs'; reflexivity |].
    split.
    + intros Hid. rewrite status_run. cbv zeta. rewrite py_or_default.
      replace (_last_agent_id (self s')) with (dict_get d "agent_id" VNone)
        by (rewrite Hs'; reflexivity).
      rewrite (is_None_false _ Hid). reflexivity.
    + intros Hcomp. rewrite leaderboard_run. cbv zeta. rewrite py_or_default.
      replace (_last_competition (self s')) with competition
        by (rewrite Hs'; reflexivity).
      rewrite (is_None_false _ Hcomp). reflexivity.
  - intros. split; reflexivity.
  - intros e competition agent files agent_name s ex.
    apply submit_raises_self.
  - intros e s. apply status_without_default.
  - intros e s. apply leaderboard_without_default.
Qed.

(** The example of the specification: HTTP 201 with agent identifier A1 to
    [submit("comp1", files=["agent.py"])], then [status()] and
    [leaderboard()]. *)
Lemma session_defaults_witness :
  let s' := snd (submit (mock_env created_201) (VStr "comp1") None
                        (Some ["agent.py"%string]) VNone
                        (initial_state example_client)) in
  trace (snd (status (mock_env created_201) VNone s'))
  = trace s'
    ++ [ERequest
          {| req_method := GET;
             req_url := [FLit "https://ml-arena.com/api/sdk/status/A1"];
             req_headers := [("Authorization", "Bearer id:pass")]%string;
             req_files := [];
             req_data := [];
             req_timeout := 30 |}]
  /\ trace (snd (leaderboard (mock_env created_201) VNone s'))
     = trace s'
       ++ [ERequest
             {| req_method := GET;
                req_url := [FLit "https://ml-arena.com/api/sdk/leaderboard/comp1"];
                req_headers := [];
                req_files := [];
                req_data := [];
                req_timeout := 30 |}].
Proof.
  destruct (proj1 session_defaults (mock_env created_201) (mock_env created_201)
              (VStr "comp1") None (Some ["agent.py"%string]) VNone
              (initial_state example_client) _ eq_refl)
    as (d & Hbody & _ & _ & Hstatus & Hboard).
  injection Hbody as <-.
  cbv zeta. rewrite Hstatus by discriminate. rewrite Hboard by discriminate.
  split; reflexivity.
Defined.

(** C10.  When [submit] returns a body without [agent_id] entry, the
    stored agent identifier is None, whatever it was before, and the
    stored competition is the one submitted to; [status()] then raises
    SubmissionError and sends nothing. *)
Theorem submit_without_agent_id (e e' : env) (competition : value)
  (agent : option agent_class) (files : option (list string))
  (agent_name : value) (s : state) (d : list (key * value)) :
  fst (submit e competition agent files agent_name s) = Return (VDict d) ->
  dict_lookup (KStr "agent_id") d = None ->
  let s' := snd (submit e competition agent files agent_name s) in
  _last_agent_id (self s') = VNone
  /\ _last_competition (self s') = competition
  /\ status e' VNone s'
     = (Raise (SubmissionError
                 [FLit "No agent_id provided and no previous submission found"]),
        s').
Proof.
  intros Hret Hnone s'.
  destruct (submit_stores e competition agent files agent_name s _ Hret)
    as (d' & Hbody & Hs').
  injection Hbody as <-. fold s' in Hs'.
  assert (Hid : _last_agent_id (self s') = VNone).
  { rewrite Hs'. unfold dict_get. rewrite Hnone. reflexivity. }
  split; [exact Hid |]. split; [rewrite Hs'; reflexivity |].
  apply status_without_default. exact Hid.
Qed.

(** A client that holds identifier A1 from an earlier submission submits
    again and is answered HTTP 200 without identifier. *)
Lemma submit_without_agent_id_witness :
  let s := snd (submit (mock_env created_201) (VStr "comp1") None
                       (Some ["agent.py"%string]) VNone
                       (initial_state example_client)) in
  let s' := snd (submit (mock_env ok_without_id) (VStr "comp2") None
                        (Some ["agent.py"%string]) VNone s) in
  _last_agent_id (self s) = VStr "A1"
  /\ _last_agent_id (self s') = VNone
  /\ _last_competition (self s') = VStr "comp2"
  /\ status (mock_env created_201) VNone s'
     = (Raise (SubmissionError
                 [FLit "No agent_id provided and no previous submission found"]),
        s').
Proof.
  cbv zeta. split; [reflexivity |].
  apply (submit_without_agent_id (mock_env ok_without_id) (mock_env created_201)
           (VStr "comp2") None (Some ["agent.py"%string]) VNone _
           [(KStr "status", VStr "queued")]);
    reflexivity.
Defined.

(** ** The trace of a submission *)

Lemma finally_events_frame (a b : state) :
  multipart_files a = multipart_files b -> tmp_dir a = tmp_dir b ->
  finally_events a = finally_events b.
Proof. unfold finally_events. intros -> ->. reflexivity. Qed.

(** The outcome and the trace of [submit] in terms of its staging: when
    staging raises, the [finally] clause follows at once; otherwise the
    request goes out in between, and the outcome is that of the transport
    and of the handling of the response. *)
Lemma submit_run (e : env) (competition : value)
  (agent : option agent_class) (files : option (list string))
  (agent_name : value) (s : state) :
  match agent, files with
  | Some _, None | None, Some _ => True
  | _, _ => False
  end ->
  let out := submit e competition agent files agent_name s in
  let s1 := snd (stage e agent files (enter_submit s)) in
  let req := submit_request (self s1) competition (multipart_files s1) agent_name in
  match fst (stage e agent files (enter_submit s)) with
  | Raise ex =>
      fst out = Raise ex
      /\ trace (snd out) = trace s1 ++ finally_events s1
  | Return _ =>
      fst out = match send e req with
                | Raise ex => Raise ex
                | Return resp =>
                    fst (submit_response competition resp
                           (record_events s1 [ERequest req]))
                end
      /\ trace (snd out) = trace s1 ++ [ERequest req] ++ finally_events s1
  end.
Proof.
  intros Hmode. cbv zeta.
  rewrite (submit_one_mode e competition agent files agent_name s Hmode).
  cbn [fst snd]. cbv zeta. rewrite submit_body_run.
  destruct (stage e agent files (enter_submit s)) as [[u | ex] s1]; cbn [fst snd].
  - cbv zeta.
    destruct (send e (submit_request (self s1) competition (multipart_files s1)
                                     agent_name)) as [resp | ex].
    + split; [reflexivity |].
      destruct (submit_response_frame competition resp
                  (record_events s1
                     [ERequest (submit_request (self s1) competition
                                  (multipart_files s1) agent_name)]))
        as (Htrace & _ & Hfiles & Hdir).
      cbv zeta in Htrace, Hfiles, Hdir.
      cbn [record_events trace]. rewrite Htrace.
      rewrite (finally_events_frame _ s1 Hfiles Hdir).
      cbn [record_events trace]. rewrite <- app_assoc. reflexivity.
    + split; [reflexivity |].
      unfold finally_events.
      cbn [snd record_events trace multipart_files tmp_dir].
      rewrite <- app_assoc. reflexivity.
  - split; reflexivity.
Qed.




(** ** Argument errors of submit (C4, C9) *)



(** C9.  [submit(competition, files=[])] passes the check of its
    arguments: the one thing it does to the world is the POST to
    [/submit/competition], with no file part, and its outcome is that of the
    transport and of the handling of the response. *)
Theorem submit_empty_files (e : env) (competition agent_name : value)
  (s : state) :
  let out := submit e competition None (Some []) agent_name s in
  let req := submit_request (self s) competition [] agent_name in
  trace (snd out) = trace s ++ [ERequest req]
  /\ req_method req = POST
  /\ req_url req = _url (self s) (fjoin [FLit "/submit/"; interp competition])
  /\ req_files req = []
  /\ (forall ex, send e req = Raise ex -> fst out = Raise ex)
  /\ (forall resp d,
         send e req = Return resp ->
         is_success (status_code resp) = true ->
         json resp = Some (VDict d) ->
         fst out = Return (VDict d)).
Proof.
  cbv zeta.
  pose proof (submit_run e competition None (Some []) agent_name s I) as Hrun.
  cbv zeta in Hrun. cbn [stage stage_files ret fst snd] in Hrun.
  cbn [enter_submit self multipart_files trace] in Hrun.
  destruct Hrun as [Hout Htrace].
  split; [exact Htrace |].
  split; [reflexivity |]. split; [reflexivity |]. split; [reflexivity |].
  split.
  - intros ex Hsend. rewrite Hout, Hsend. reflexivity.
  - intros resp d Hsend Hsucc Hbody. rewrite Hout, Hsend.
    unfold submit_response, bind, lift.
    rewrite (handle_response_success resp Hsucc), Hsucc.
    unfold resp_json. rewrite Hbody. reflexivity.
Qed.

Lemma submit_empty_files_witness :
  fst (submit (mock_env created_201) (VStr "comp1") None (Some []) VNone
              (initial_state example_client))
  = Return (VDict [(KStr "agent_id", VStr "A1"); (KStr "status", VStr "queued")]).
Proof.
  apply (proj2 (proj2 (proj2 (proj2 (proj2
           (submit_empty_files (mock_env created_201) (VStr "comp1") VNone
              (initial_state example_client)))))) created_201);
    reflexivity.
Defined.

(** ** Release of handles and of the temporary directory (C8) *)

(** *** submit_io when nothing fails *)

Lemma stage_files_io_reliable (e : env) (files : list string) :
  forall s, stage_files_io reliable e files s = stage_files e files s.
Proof.
  induction files as [| p files IH]; intros s; [reflexivity |].
  cbn [stage_files_io stage_files].
  destruct (negb (isfile e p)); [reflexivity |].
  unfold bind, open_io. cbn [reliable open_raises py_open append_multipart
                             set_multipart_files].
  apply IH.
Qed.

Lemma stage_agent_io_reliable (e : env) (a : agent_class) (s : state) :
  stage_agent_io reliable e a s = stage_agent e a s.
Proof.
  unfold stage_agent_io, stage_agent, bind, lift, try_finally, open_io, close_io.
  destruct (getsource a); reflexivity.
Qed.

Lemma close_all_io_reliable (fs : list multipart) :
  forall s, close_all_io reliable fs s = close_all fs s.
Proof.
  induction fs as [| [field [name h]] fs IH]; intros s; [reflexivity |].
  cbn [close_all_io close_all]. unfold close_io, bind, emit, ret.
  cbn [reliable close_raises]. apply IH.
Qed.

Lemma submit_finally_io_reliable (s : state) :
  submit_finally_io reliable s = submit_finally s.
Proof.
  unfold submit_finally_io, submit_finally, bind.
  rewrite close_all_io_reliable.
  destruct (close_all (multipart_files s) s) as [[u | ex] s1]; reflexivity.
Qed.

(** With local I/O that does not fail, [submit_io] is [submit]. *)
Lemma submit_io_reliable (e : env) (competition : value)
  (agent : option agent_class) (files : option (list string))
  (agent_name : value) (s : state) :
  submit_io reliable e competition agent files agent_name s
  = submit e competition agent files agent_name s.
Proof.
  assert (Hbody : forall s0,
             submit_body_io reliable e competition agent files agent_name s0
             = submit_body e competition agent files agent_name s0).
  { intros s0. unfold submit_body_io, submit_body, stage_io, stage.
    unfold bind at 1. unfold bind at 5.
    destruct agent as [a |]; [rewrite stage_agent_io_reliable; reflexivity |].
    destruct files as [fs |]; [rewrite stage_files_io_reliable |]; reflexivity. }
  unfold submit_io, submit.
  destruct agent as [a |], files as [fs |]; try reflexivity;
    unfold bind, set_multipart_files, set_tmp_dir, try_finally;
    rewrite Hbody;
    destruct (submit_body e competition _ _ agent_name _) as [r s1];
    rewrite submit_finally_io_reliable; reflexivity.
Qed.

(** *** The trace of submit_io *)










Section FailingIO.

Variable io : local_io.
Variable e : env.

Hypothesis mkdtemp_path : mkdtemp e <> ""%string.
Hypothesis read_handles_close : forall h, close_raises io h "rb" = false.







End FailingIO.

(** *** Release on every exit *)




(** What these two exits look like. *)
Example submit_io_local_failures :
  submit_io open_failing (two_files_env created_201) (VStr "comp1") None
    (Some ["agent.py"; "model.bin"]%string) VNone
    (initial_state example_client)
  = (Raise OSError,
     {| self := example_client;
        trace := [EOpen 3 "agent.py" "rb"; EClose 3];
        next_fd := 4;
        multipart_files := [("files", ("agent.py", 3))]%string;
        tmp_dir := None |})
  /\ trace (snd (submit_io open_failing (mock_env created_201) (VStr "comp1")
                   (Some {| getsource := Some "class Agent: pass"%string |})
                   None VNone (initial_state example_client)))
     = [EMkdtemp "/tmp/tmpk3q";
        EOpen 3 "/tmp/tmpk3q/agent.py" "w";
        EClose 3;
        ERmtree "/tmp/tmpk3q"].
Proof. split; reflexivity. Qed.

(** [replay] does tell a handle left open and a directory left behind, and
    has no replay for a handle closed twice. *)
Example replay_tells_leaks :
  replay [] [] [EOpen 3 "agent.py" "rb"] = Some ([3], [])
  /\ replay [] [] [EOpen 3 "agent.py" "rb"; EClose 3; EClose 3] = None
  /\ replay [] [] [EMkdtemp "/tmp/tmpk3q"] = Some ([], ["/tmp/tmpk3q"%string]).
Proof. repeat split. Qed.

(** * Further properties of the code *)

(** ** connect: what it accepts, what it stores *)

Section ConnectMore.

Local Open Scope string_scope.

(** The two items of a split are the text before the first separator,
    which is free of it, and the text after it. *)
Lemma split1_join (c : ascii) (s : string) :
  forall a b,
    split1 c s = [a; b] ->
    s = a ++ String c b /\ contains_char c a = false.
Proof.
  induction s as [| x s IH]; simpl; intros a b H; [discriminate |].
  destruct (Ascii.eqb x c) eqn:Hx.
  - injection H as <- <-. apply Ascii.eqb_eq in Hx. subst x.
    split; reflexivity.
  - destruct (split1 c s) as [| hd tl]; [discriminate |].
    injection H as <- ->. destruct (IH hd b eq_refl) as [-> Hhd].
    simpl. rewrite Hx, Hhd. split; reflexivity.
Qed.

Lemma split1_two (c : ascii) (s : string) :
  contains_char c s = true -> exists a b, split1 c s = [a; b].
Proof.
  intros H. destruct (contains_char_split c s H) as (a & b & -> & Ha).
  exists a, b. apply split1_at_first. exact Ha.
Qed.

Lemma rstrip_app_sep (c : ascii) (s : string) :
  rstrip c (s ++ String c "") = rstrip c s.
Proof.
  induction s as [| x s IH]; simpl.
  - rewrite Ascii.eqb_refl. reflexivity.
  - rewrite IH. reflexivity.
Qed.

Lemma rstrip_idempotent (c : ascii) (s : string) :
  rstrip c (rstrip c s) = rstrip c s.
Proof.
  induction s as [| x s IH]; simpl; [reflexivity |].
  destruct ((rstrip c s =? "") && Ascii.eqb x c) eqn:E; [reflexivity |].
  simpl. rewrite IH, E. reflexivity.
Qed.

(** X1.  The client that [connect] returns sends the credential string
    back as it was given: its Authorization header is "Bearer " followed by
    [api_key], the key id is the text before the first [:] and holds no
    [:], and neither half is empty. *)
Theorem connect_header_round_trip (api_key base_url : string)
  (c : MLArenaClient) :
  connect api_key base_url = Return c ->
  _headers c = [("Authorization", "Bearer " ++ api_key)]
  /\ api_key = _key_id c ++ ":" ++ _key_pass c
  /\ contains_char ":" (_key_id c) = false
  /\ _key_id c <> "" /\ _key_pass c <> "".
Proof.
  unfold connect. intros H.
  destruct (negb (truthy (VStr api_key)) || negb (contains_char ":" api_key));
    [discriminate |].
  destruct (split1 ":" api_key) as [| id [| pass [| x l]]] eqn:Hsplit;
    try discriminate.
  destruct (negb (truthy (VStr id)) || negb (truthy (VStr pass))) eqn:Hhalves;
    [discriminate |].
  injection H as <-.
  destruct (split1_join ":" api_key id pass Hsplit) as [Hkey Hid].
  apply orb_false_elim in Hhalves. destruct Hhalves as [H1 H2].
  apply negb_false_iff in H1, H2. unfold truthy in H1, H2.
  apply negb_true_iff in H1, H2. apply String.eqb_neq in H1, H2.
  unfold _headers. cbn [_key_id _key_pass MLArenaClient_init].
  repeat split; try assumption.
  rewrite Hkey. reflexivity.
Qed.

Lemma connect_header_round_trip_witness :
  _headers (MLArenaClient_init "id" "pa:ss" "https://ml-arena.com")
  = [("Authorization", "Bearer id:pa:ss")].
Proof.
  apply (connect_header_round_trip "id:pa:ss" default_base_url). reflexivity.
Defined.

(** X2.  [connect] raises nothing but AuthenticationError: the unpacking
    of the split into two names cannot fail, because the split is made only
    of a string that holds a [:]. *)
Theorem connect_raises_only_authentication (api_key base_url : string)
  (ex : exn) :
  connect api_key base_url = Raise ex ->
  exists msg, ex = AuthenticationError msg.
Proof.
  unfold connect.
  destruct (negb (truthy (VStr api_key)) || negb (contains_char ":" api_key))
    eqn:Hfirst.
  - intros H. injection H as <-. eexists. reflexivity.
  - apply orb_false_elim in Hfirst. destruct Hfirst as [_ Hsep].
    apply negb_false_iff in Hsep.
    destruct (split1_two ":" api_key Hsep) as (a & b & ->).
    destruct (negb (truthy (VStr a)) || negb (truthy (VStr b)));
      [| discriminate].
    intros H. injection H as <-. eexists. reflexivity.
Qed.

Lemma connect_raises_only_authentication_witness :
  exists msg,
    AuthenticationError (VStr "Both key_id and key_pass must be non-empty.")
    = AuthenticationError msg.
Proof.
  apply (connect_raises_only_authentication "id:" default_base_url).
  reflexivity.
Defined.

(** X3.  A slash at the end of the base URL makes no difference to
    [connect], and connecting again with the base URL that a client has
    stored gives that client again. *)
Theorem connect_ignores_trailing_slash (api_key base_url : string) :
  connect api_key (base_url ++ "/") = connect api_key base_url
  /\ (forall c,
         connect api_key base_url = Return c ->
         connect api_key (_base_url c) = Return c).
Proof.
  split.
  - unfold connect. rewrite rstrip_app_sep. reflexivity.
  - unfold connect. intros c H.
    destruct (negb (truthy (VStr api_key)) || negb (contains_char ":" api_key));
      [discriminate |].
    destruct (split1 ":" api_key) as [| id [| pass [| x l]]]; try discriminate.
    destruct (negb (truthy (VStr id)) || negb (truthy (VStr pass)));
      [discriminate |].
    injection H as <-. cbn [_base_url MLArenaClient_init].
    rewrite rstrip_idempotent. reflexivity.
Qed.

Lemma connect_ignores_trailing_slash_witness :
  connect "id:pass" "https://ml-arena.com"
  = Return (MLArenaClient_init "id" "pass" "https://ml-arena.com").
Proof.
  apply (proj2 (connect_ignores_trailing_slash "id:pass" "https://ml-arena.com//")
           (MLArenaClient_init "id" "pass" "https://ml-arena.com")).
  reflexivity.
Defined.

End ConnectMore.

(** ** _handle_response *)

Lemma handle_response_unmapped (resp : response) :
  status_code resp <> 401%Z -> status_code resp <> 403%Z ->
  status_code resp <> 404%Z ->
  _handle_response resp = Return resp.
Proof.
  intros H1 H3 H4. unfold _handle_response.
  apply Z.eqb_neq in H1, H3, H4. rewrite H1, H3, H4. reflexivity.
Qed.

(** X4.  [_handle_response] returns exactly when the status is none of
    401, 403 and 404, and then it returns the response it was given;
    a status such as 500 passes it. *)
Theorem handle_response_passes (resp r : response) :
  _handle_response resp = Return r
  <-> (r = resp
       /\ status_code resp <> 401%Z /\ status_code resp <> 403%Z
       /\ status_code resp <> 404%Z).
Proof.
  unfold _handle_response. split.
  - destruct (Z.eqb_spec (status_code resp) 401); [discriminate |].
    destruct (Z.eqb_spec (status_code resp) 403);
      [destruct (json_get resp "error" (VStr "Access denied")); discriminate |].
    destruct (Z.eqb_spec (status_code resp) 404);
      [destruct (json_get resp "error" (VStr "Not found")); discriminate |].
    intros H. injection H as <-. auto.
  - intros (-> & H1 & H3 & H4).
    fold (_handle_response resp). apply handle_response_unmapped; assumption.
Qed.

(** X5.  On status 403 or 404 the typed error needs a body that decodes
    to a JSON object: a body that does not decode raises the decoding
    error, and a body that decodes to anything else (a list, a string, a
    number) raises AttributeError. *)
Theorem handle_response_needs_object (resp : response) :
  status_code resp = 403%Z \/ status_code resp = 404%Z ->
  (json resp = None -> _handle_response resp = Raise JSONDecodeError)
  /\ (forall v,
         json resp = Some v -> (forall d, v <> VDict d) ->
         _handle_response resp = Raise AttributeError).
Proof.
  intros Hcode. split.
  - intros Hnone. unfold _handle_response, json_get, resp_json.
    rewrite Hnone. destruct Hcode as [-> | ->]; reflexivity.
  - intros v Hv Hnot. unfold _handle_response, json_get, resp_json.
    rewrite Hv.
    assert (Hget : forall k dflt, py_get v k dflt = Raise AttributeError).
    { intros k dflt. destruct v; try reflexivity.
      exfalso. exact (Hnot d eq_refl). }
    rewrite !Hget. destruct Hcode as [-> | ->]; reflexivity.
Qed.

Lemma handle_response_needs_object_witness :
  _handle_response {| status_code := 404; text := "[]"; json := Some (VList []) |}
  = Raise AttributeError.
Proof.
  apply (proj2 (handle_response_needs_object
                  {| status_code := 404; text := "[]"; json := Some (VList []) |}
                  (or_intror eq_refl))
           (VList []) eq_refl).
  intros d H. discriminate H.
Defined.

(** ** status, leaderboard, competitions: arguments, effects, outcomes *)

Lemma truthy_not_None (v : value) : truthy v = true -> is_None v = false.
Proof. destruct v; simpl; congruence. Qed.

(** X6.  An argument that Python counts as false (None, the empty string,
    zero) is to [status] and [leaderboard] the same as no argument; an
    argument that counts as true is the target of the request, whatever
    default is stored. *)
Theorem query_argument_precedence (e : env) (a : value) (s : state) :
  (truthy a = false ->
   status e a s = status e VNone s
   /\ leaderboard e a s = leaderboard e VNone s)
  /\ (truthy a = true ->
      trace (snd (status e a s))
      = trace s ++ [ERequest (status_request (self s) a)]
      /\ trace (snd (leaderboard e a s))
         = trace s ++ [ERequest (leaderboard_request (self s) a)]).
Proof.
  split; intros Ha.
  - rewrite !status_run, !leaderboard_run. unfold py_or. rewrite Ha.
    split; reflexivity.
  - rewrite status_run, leaderboard_run. unfold py_or. rewrite Ha. cbv zeta.
    rewrite (truthy_not_None a Ha). split; reflexivity.
Qed.

Lemma query_argument_precedence_witness :
  status (mock_env created_201) (VStr "") (initial_state example_client)
  = status (mock_env created_201) VNone (initial_state example_client)
  /\ trace (snd (status (mock_env created_201) (VStr "A7")
                        (initial_state example_client)))
     = [ERequest (status_request example_client (VStr "A7"))].
Proof.
  split.
  - apply (proj1 (query_argument_precedence (mock_env created_201) (VStr "")
                    (initial_state example_client))).
    reflexivity.
  - apply (proj2 (query_argument_precedence (mock_env created_201) (VStr "A7")
                    (initial_state example_client))).
    reflexivity.
Defined.

(** X7.  The three queries never change [self] and never open a file:
    each leaves the state as it is but for at most one GET request, without
    file parts and form data, at the end of the trace. *)
Theorem queries_leave_client (e : env) (a : value) (s : state) :
  query_effect s (snd (status e a s))
  /\ query_effect s (snd (leaderboard e a s))
  /\ query_effect s (snd (competitions e s)).
Proof.
  unfold query_effect. rewrite status_run, leaderboard_run, competitions_run.
  cbv zeta. split; [| split].
  - destruct (is_None (py_or a (_last_agent_id (self s)))); cbn [snd].
    + split; [reflexivity |]. split; [reflexivity |]. left. reflexivity.
    + split; [reflexivity |]. split; [reflexivity |]. right.
      eexists. split; [reflexivity |]. repeat split.
  - destruct (is_None (py_or a (_last_competition (self s)))); cbn [snd].
    + split; [reflexivity |]. split; [reflexivity |]. left. reflexivity.
    + split; [reflexivity |]. split; [reflexivity |]. right.
      eexists. split; [reflexivity |]. repeat split.
  - cbn [snd]. split; [reflexivity |]. split; [reflexivity |]. right.
    eexists. split; [reflexivity |]. repeat split.
Qed.

(** X8.  [leaderboard] and [competitions] send no header, and so no
    credentials: a request in the trace after either of them was in the
    trace before, or has no header.  The request of [status] has the
    Authorization header of the client. *)
Theorem credentials_only_to_status (e : env) (a : value) (s : state) :
  (forall r,
      In (ERequest r) (trace (snd (leaderboard e a s))) ->
      In (ERequest r) (trace s) \/ req_headers r = [])
  /\ (forall r,
         In (ERequest r) (trace (snd (competitions e s))) ->
         In (ERequest r) (trace s) \/ req_headers r = [])
  /\ (forall r,
         In (ERequest r) (trace (snd (status e a s))) ->
         In (ERequest r) (trace s) \/ req_headers r = _headers (self s)).
Proof.
  rewrite status_run, leaderboard_run, competitions_run. cbv zeta.
  split; [| split]; intros r.
  - destruct (is_None (py_or a (_last_competition (self s)))); cbn [snd];
      [intros H; left; exact H |].
    cbn [record_events trace]. intros H. apply in_app_or in H.
    destruct H as [H | [H | []]]; [left; exact H |].
    injection H as <-. right. reflexivity.
  - cbn [snd record_events trace]. intros H. apply in_app_or in H.
    destruct H as [H | [H | []]]; [left; exact H |].
    injection H as <-. right. reflexivity.
  - destruct (is_None (py_or a (_last_agent_id (self s)))); cbn [snd];
      [intros H; left; exact H |].
    cbn [record_events trace]. intros H. apply in_app_or in H.
    destruct H as [H | [H | []]]; [left; exact H |].
    injection H as <-. right. reflexivity.
Qed.

Lemma credentials_only_to_status_witness :
  In (ERequest (leaderboard_request example_client (VStr "comp1")))
     (trace (initial_state example_client))
  \/ req_headers (leaderboard_request example_client (VStr "comp1")) = [].
Proof.
  apply (proj1 (credentials_only_to_status (mock_env created_201) (VStr "comp1")
                  (initial_state example_client))).
  left. reflexivity.
Defined.

Lemma handle_response_below_400 (resp : response) :
  (status_code resp < 400)%Z -> _handle_response resp = Return resp.
Proof.
  intros H. unfold _handle_response.
  destruct (Z.eqb_spec (status_code resp) 401); [lia |].
  destruct (Z.eqb_spec (status_code resp) 403); [lia |].
  destruct (Z.eqb_spec (status_code resp) 404); [lia |].
  reflexivity.
Qed.

Lemma raise_for_status_below_400 (resp : response) :
  (status_code resp < 400)%Z -> raise_for_status resp = Return tt.
Proof.
  intros H. unfold raise_for_status.
  destruct (Z.leb_spec 400 (status_code resp)); [lia | reflexivity].
Qed.

(** X9.  What [status] makes of a response whose status is none of 401,
    403 and 404: a status from 400 to 599 raises the HTTP error of the
    transport library with that status, and any other status returns the
    decoded body, whatever JSON value it is, or raises the decoding error. *)
Theorem status_outcome (e : env) (a : value) (s : state) (resp : response) :
  py_or a (_last_agent_id (self s)) <> VNone ->
  send e (status_request (self s) (py_or a (_last_agent_id (self s))))
  = Return resp ->
  status_code resp <> 401%Z -> status_code resp <> 403%Z ->
  status_code resp <> 404%Z ->
  ((400 <= status_code resp < 600)%Z ->
   fst (status e a s) = Raise (HTTPError (status_code resp)))
  /\ ((status_code resp < 400)%Z \/ (600 <= status_code resp)%Z ->
      fst (status e a s)
      = match json resp with
        | Some v => Return v
        | None => Raise JSONDecodeError
        end).
Proof.
  intros Hid Hsend H1 H3 H4.
  rewrite status_run. cbv zeta. rewrite (is_None_false _ Hid). cbn [fst].
  rewrite Hsend.
  rewrite (handle_response_unmapped resp H1 H3 H4).
  unfold raise_for_status, resp_json. split.
  - intros [Hlo Hhi].
    destruct (Z.leb_spec 400 (status_code resp)); [| lia].
    destruct (Z.ltb_spec (status_code resp) 600); [| lia]. reflexivity.
  - intros Hout.
    destruct (Z.leb_spec 400 (status_code resp));
      destruct (Z.ltb_spec (status_code resp) 600); cbn [andb];
      try lia; destruct (json resp); reflexivity.
Qed.

Lemma status_outcome_witness :
  fst (status (mock_env failed_500) (VStr "A1") (initial_state example_client))
  = Raise (HTTPError (status_code failed_500)).
Proof.
  refine (proj1 (status_outcome (mock_env failed_500) (VStr "A1")
                   (initial_state example_client) failed_500 _ eq_refl _ _ _) _);
    simpl; try discriminate; lia.
Defined.

(** X10.  On a status below 400 [leaderboard] and [competitions] return
    what [_to_dataframe] makes of the decoded body, errors of the
    conversion included. *)
Theorem tables_from_responses (e : env) (s : state) (resp : response)
  (data : value) :
  (forall r, send e r = Return resp) ->
  (status_code resp < 400)%Z ->
  json resp = Some data ->
  (forall competition,
      py_or competition (_last_competition (self s)) <> VNone ->
      fst (leaderboard e competition s)
      = _to_dataframe (pandas_installed e) data)
  /\ fst (competitions e s) = _to_dataframe (pandas_installed e) data.
Proof.
  intros Hsend Hcode Hbody. split.
  - intros competition Hcomp. rewrite leaderboard_run. cbv zeta.
    rewrite (is_None_false _ Hcomp). cbn [fst]. rewrite Hsend.
    rewrite (handle_response_below_400 resp Hcode).
    rewrite (raise_for_status_below_400 resp Hcode).
    unfold resp_json. rewrite Hbody. reflexivity.
  - rewrite competitions_run. cbn [fst]. rewrite Hsend.
    rewrite (raise_for_status_below_400 resp Hcode).
    unfold resp_json. rewrite Hbody. reflexivity.
Qed.

(** The example of the specification, through [leaderboard]. *)
Lemma tables_from_responses_witness :
  let board :=
    VDict [(KStr "columns", VList [VStr "name"; VStr "score"]);
           (KStr "data", VList [VList [VStr "x"; VInt 1];
                                VList [VStr "y"; VInt 2]])] in
  let resp := {| status_code := 200; text := ""; json := Some board |} in
  fst (leaderboard (mock_env resp) (VStr "comp1") (initial_state example_client))
  = Return (Plain (VList [VDict [(KStr "name", VStr "x"); (KStr "score", VInt 1)];
                          VDict [(KStr "name", VStr "y"); (KStr "score", VInt 2)]])).
Proof.
  cbv zeta.
  rewrite (proj1 (tables_from_responses
                    (mock_env {| status_code := 200; text := "";
                                 json := Some _ |})
                    (initial_state example_client) _ _
                    (fun _ => eq_refl) ltac:(reflexivity) eq_refl)
             (VStr "comp1") ltac:(discriminate)).
  reflexivity.
Defined.

(** X11.  A failure of the transport (a timeout, a refused connection)
    comes out of each of the four operations as it is, not wrapped. *)
Theorem transport_errors_propagate (e : env) (ex : exn) :
  (forall r, send e r = Raise ex) ->
  (forall competition agent files agent_name s,
      staging_ok e agent files = true ->
      fst (submit e competition agent files agent_name s) = Raise ex)
  /\ (forall agent_id s,
         py_or agent_id (_last_agent_id (self s)) <> VNone ->
         fst (status e agent_id s) = Raise ex)
  /\ (forall competition s,
         py_or competition (_last_competition (self s)) <> VNone ->
         fst (leaderboard e competition s) = Raise ex)
  /\ (forall s, fst (competitions e s) = Raise ex).
Proof.
  intros Hsend. split; [| split; [| split]].
  - intros competition agent files agent_name s Hok.
    pose proof (submit_run e competition agent files agent_name s
                  (staging_ok_one_mode e agent files Hok)) as Hrun.
    cbv zeta in Hrun.
    rewrite (stage_succeeds e agent files (enter_submit s) Hok) in Hrun.
    destruct Hrun as [-> _]. rewrite Hsend. reflexivity.
  - intros agent_id s Hid. rewrite status_run. cbv zeta.
    rewrite (is_None_false _ Hid). cbn [fst]. rewrite Hsend. reflexivity.
  - intros competition s Hcomp. rewrite leaderboard_run. cbv zeta.
    rewrite (is_None_false _ Hcomp). cbn [fst]. rewrite Hsend. reflexivity.
  - intros s. rewrite competitions_run. cbn [fst]. rewrite Hsend. reflexivity.
Qed.

Lemma transport_errors_propagate_witness :
  fst (competitions {| isfile := fun _ => false; mkdtemp := "/tmp/tmpk3q";
                       send := fun _ => Raise TransportError;
                       pandas_installed := false |}
                    (initial_state example_client))
  = Raise TransportError.
Proof.
  apply (proj2 (proj2 (proj2
           (transport_errors_propagate
              {| isfile := fun _ => false; mkdtemp := "/tmp/tmpk3q";
                 send := fun _ => Raise TransportError;
                 pandas_installed := false |}
              TransportError (fun _ => eq_refl))))).
Defined.

(** ** submit: what it sends, what it keeps *)

(** X12.  [submit] never changes the credentials and the base URL of the
    client, however it ends. *)
Theorem submit_keeps_credentials (e : env) (competition : value)
  (agent : option agent_class) (files : option (list string))
  (agent_name : value) (s : state) :
  let c' := self (snd (submit e competition agent files agent_name s)) in
  _key_id c' = _key_id (self s)
  /\ _key_pass c' = _key_pass (self s)
  /\ _base_url c' = _base_url (self s).
Proof.
  cbv zeta.
  destruct (fst (submit e competition agent files agent_name s)) as [body | ex]
    eqn:Hout.
  - destruct (submit_stores e competition agent files agent_name s body Hout)
      as (d & _ & ->).
    repeat split.
  - rewrite (submit_raises_self e competition agent files agent_name s ex Hout).
    repeat split.
Qed.






(** X14.  In the [agent] mode with a readable source, [submit] does the
    following and nothing else, in this order: it makes the directory,
    writes the source to [agent.py] in it and closes that file, opens it
    for reading, sends the POST with that one part, named [agent.py],
    closes the handle and removes the directory; and this whatever the
    answer of the server is. *)
Theorem submit_agent_trace (e : env) (competition : value) (a : agent_class)
  (agent_name : value) (s : state) (source : string) :
  getsource a = Some source ->
  mkdtemp e <> ""%string ->
  trace (snd (submit e competition (Some a) None agent_name s))
  = trace s
    ++ agent_events e source (next_fd s)
    ++ [ERequest (submit_request (self s) competition
                    [("files", ("agent.py", S (next_fd s)))]%string agent_name);
        EClose (S (next_fd s));
        ERmtree (mkdtemp e)].
Proof.
  intros Hsrc Hdir.
  pose proof (submit_run e competition (Some a) None agent_name s I) as Hrun.
  cbv zeta in Hrun. unfold stage in Hrun. rewrite stage_agent_run in Hrun.
  rewrite Hsrc in Hrun. cbn [fst snd] in Hrun.
  destruct Hrun as [_ Htrace]. rewrite Htrace.
  unfold finally_events, enter_submit.
  cbn [self trace next_fd multipart_files tmp_dir app closes map snd].
  unfold truthy. rewrite (eqb_empty_false _ Hdir). cbn [negb].
  rewrite <- app_assoc. reflexivity.
Qed.

Lemma submit_agent_trace_witness :
  trace (snd (submit (mock_env plain_500) (VStr "comp1")
                (Some {| getsource := Some "class Agent: pass"%string |})
                None VNone (initial_state example_client)))
  = [EMkdtemp "/tmp/tmpk3q";
     EOpen 3 "/tmp/tmpk3q/agent.py" "w";
     EWrite 3 "class Agent: pass";
     EClose 3;
     EOpen 4 "/tmp/tmpk3q/agent.py" "rb";
     ERequest (submit_request example_client (VStr "comp1")
                 [("files", ("agent.py", 4))]%string VNone);
     EClose 4;
     ERmtree "/tmp/tmpk3q"].
Proof.
  apply (submit_agent_trace (mock_env plain_500) (VStr "comp1")
           {| getsource := Some "class Agent: pass"%string |} VNone
           (initial_state example_client) "class Agent: pass" eq_refl).
  discriminate.
Defined.

(** X15.  When the source of the agent cannot be read, [submit] raises
    the error of [inspect.getsource] before it has made a directory,
    opened a file or sent anything, and [self] is as it was. *)
Theorem submit_getsource_failure (e : env) (competition : value)
  (a : agent_class) (agent_name : value) (s : state) :
  getsource a = None ->
  fst (submit e competition (Some a) None agent_name s) = Raise OSError
  /\ trace (snd (submit e competition (Some a) None agent_name s)) = trace s
  /\ self (snd (submit e competition (Some a) None agent_name s)) = self s.
Proof.
  intros Hsrc.
  pose proof (submit_run e competition (Some a) None agent_name s I) as Hrun.
  cbv zeta in Hrun. unfold stage in Hrun. rewrite stage_agent_run in Hrun.
  rewrite Hsrc in Hrun. cbn [fst snd] in Hrun.
  destruct Hrun as [Hout Htrace].
  split; [exact Hout |]. split.
  - rewrite Htrace. unfold finally_events, enter_submit.
    cbn [trace multipart_files tmp_dir closes map app].
    apply app_nil_r.
  - exact (submit_raises_self e competition (Some a) None agent_name s _ Hout).
Qed.

Lemma submit_getsource_failure_witness :
  fst (submit (mock_env created_201) (VStr "comp1")
              (Some {| getsource := None |}) None VNone
              (initial_state example_client))
  = Raise OSError.
Proof.
  apply (submit_getsource_failure (mock_env created_201) (VStr "comp1")
           {| getsource := None |} VNone (initial_state example_client)).
  reflexivity.
Defined.

(** X16.  A success status is not enough for [submit] to return: the
    body has to decode to a JSON object.  With a body that does not decode
    it raises the decoding error, with a body that decodes to anything but
    an object it raises AttributeError, and in both cases the stored
    defaults stay as they were. *)
Theorem submit_success_needs_object (e : env) (competition : value)
  (agent : option agent_class) (files : option (list string))
  (agent_name : value) (s : state) (resp : response) :
  staging_ok e agent files = true ->
  (forall r, send e r = Return resp) ->
  is_success (status_code resp) = true ->
  (forall d, json resp <> Some (VDict d)) ->
  fst (submit e competition agent files agent_name s)
  = match json resp with
    | None => Raise JSONDecodeError
    | Some _ => Raise AttributeError
    end
  /\ self (snd (submit e competition agent files agent_name s)) = self s.
Proof.
  intros Hok Hsend Hsucc Hnot.
  assert (Hout : fst (submit e competition agent files agent_name s)
                 = match json resp with
                   | None => Raise JSONDecodeError
                   | Some _ => Raise AttributeError
                   end).
  { destruct (submit_answered e competition agent files agent_name s resp
                Hok Hsend) as [s1 ->].
    unfold submit_response, bind, lift.
    rewrite (handle_response_success resp Hsucc), Hsucc. cbn [negb].
    unfold resp_json. destruct (json resp) as [v |]; [| reflexivity].
    destruct v; try reflexivity. exfalso. exact (Hnot d eq_refl). }
  split; [exact Hout |].
  destruct (json resp);
    exact (submit_raises_self e competition agent files agent_name s _ Hout).
Qed.

Lemma submit_success_needs_object_witness :
  fst (submit (mock_env {| status_code := 201; text := "[]";
                           json := Some (VList []) |})
              (VStr "comp1") None (Some ["agent.py"%string]) VNone
              (initial_state example_client))
  = Raise AttributeError.
Proof.
  apply (proj1 (submit_success_needs_object
                  (mock_env {| status_code := 201; text := "[]";
                               json := Some (VList []) |})
                  (VStr "comp1") None (Some ["agent.py"%string]) VNone
                  (initial_state example_client)
                  {| status_code := 201; text := "[]"; json := Some (VList []) |}
                  eq_refl (fun _ => eq_refl) eq_refl
                  ltac:(intros d H; discriminate H))).
Defined.

(** ** _to_dataframe: edges, errors, exact rows *)

(** X17.  Without pandas the conversion is idempotent: converting what a
    conversion returned gives the same again. *)
Theorem to_dataframe_idempotent (data : value) (t : table) :
  _to_dataframe false data = Return t ->
  _to_dataframe false (logical_content t) = Return t.
Proof.
  unfold _to_dataframe.
  destruct data as [| b | z | str | l | d];
    try (intros H; injection H as <-; reflexivity).
  destruct (is_columnar (VDict d)) eqn:Hcol.
  - destruct (iter (subscript d "data")) as [items |]; [| discriminate].
    destruct (comprehension (row_dict (subscript d "columns")) items);
      [| discriminate].
    intros H. injection H as <-. reflexivity.
  - intros H. injection H as <-. cbn [logical_content]. rewrite Hcol.
    reflexivity.
Qed.

Lemma to_dataframe_idempotent_witness :
  _to_dataframe false
    (VList [VDict [(KStr "name", VStr "x"); (KStr "score", VInt 1)]])
  = Return (Plain (VList [VDict [(KStr "name", VStr "x"); (KStr "score", VInt 1)]])).
Proof.
  apply (to_dataframe_idempotent
           (VDict [(KStr "columns", VList [VStr "name"; VStr "score"]);
                   (KStr "data", VList [VList [VStr "x"; VInt 1]])])
           (Plain (VList [VDict [(KStr "name", VStr "x");
                                 (KStr "score", VInt 1)]]))).
  reflexivity.
Defined.

Lemma row_dict_raises (columns row : value) (ex : exn) :
  row_dict columns row = Raise ex -> ex = TypeError.
Proof.
  unfold row_dict.
  destruct (iter columns) as [cs |]; [| intros H; injection H as <-; reflexivity].
  destruct (iter row) as [r |]; [| intros H; injection H as <-; reflexivity].
  destruct (dict_of_pairs (zip cs r)); [discriminate |].
  intros H. injection H as <-. reflexivity.
Qed.

(** A comprehension whose element expression raises TypeError only,
    raises TypeError as soon as one element does. *)
Lemma comprehension_raises (f : value -> outcome value) (l : list value)
  (x : value) :
  (forall y ex, f y = Raise ex -> ex = TypeError) ->
  In x l -> f x = Raise TypeError ->
  comprehension f l = Raise TypeError.
Proof.
  intros Honly. induction l as [| y l IH]; intros Hin Hx; [contradiction |].
  cbn [comprehension]. destruct (f y) as [v | ex] eqn:Hy.
  - destruct Hin as [-> | Hin]; [congruence |].
    rewrite (IH Hin Hx). reflexivity.
  - rewrite (Honly y ex Hy). reflexivity.
Qed.

(** X18.  A dict with [columns] and [data] is converted only if [data]
    can be iterated and every row can be zipped with the columns: a [data]
    that is None, a number or a boolean raises TypeError, and so does a row
    that is one of these, and so do columns that are one of these when
    there is a row.  With no row the columns are not looked at: the result
    is the empty list of rows. *)
Theorem to_dataframe_type_errors (pandas : bool) (d : list (key * value))
  (columns data : value) :
  dict_lookup (KStr "columns") d = Some columns ->
  dict_lookup (KStr "data") d = Some data ->
  (iter data = None -> _to_dataframe pandas (VDict d) = Raise TypeError)
  /\ (iter data = Some [] ->
      outcome_map logical_content (_to_dataframe pandas (VDict d))
      = Return (VList []))
  /\ (forall rows row,
         iter data = Some rows -> In row rows -> iter row = None ->
         _to_dataframe pandas (VDict d) = Raise TypeError)
  /\ (forall rows,
         iter data = Some rows -> rows <> [] -> iter columns = None ->
         _to_dataframe pandas (VDict d) = Raise TypeError).
Proof.
  intros Hcols Hdata.
  unfold _to_dataframe, is_columnar, dict_mem, subscript.
  rewrite Hcols, Hdata. cbn [andb].
  split; [| split; [| split]].
  - intros ->. reflexivity.
  - intros ->. destruct pandas; reflexivity.
  - intros rows row -> Hin Hrow.
    rewrite (comprehension_raises (row_dict columns) rows row
               (row_dict_raises columns) Hin).
    + reflexivity.
    + unfold row_dict. rewrite Hrow. destruct (iter columns); reflexivity.
  - intros rows -> Hrows Hnone.
    destruct rows as [| row rows]; [contradiction |].
    rewrite (comprehension_raises (row_dict columns) (row :: rows) row
               (row_dict_raises columns) (or_introl eq_refl)).
    + reflexivity.
    + unfold row_dict. rewrite Hnone. reflexivity.
Qed.

Lemma to_dataframe_type_errors_witness :
  _to_dataframe true
    (VDict [(KStr "columns", VList [VStr "name"]);
            (KStr "data", VList [VList [VStr "x"]; VInt 7])])
  = Raise TypeError.
Proof.
  apply (proj1 (proj2 (proj2
           (to_dataframe_type_errors true
              [(KStr "columns", VList [VStr "name"]);
               (KStr "data", VList [VList [VStr "x"]; VInt 7])]
              (VList [VStr "name"]) (VList [VList [VStr "x"]; VInt 7])
              eq_refl eq_refl)))
           [VList [VStr "x"]; VInt 7] (VInt 7) eq_refl).
  - right. left. reflexivity.
  - reflexivity.
Defined.

(** Setting a key that is not there appends it. *)
Lemma dict_set_fresh (k : key) (v : value) (d : list (key * value)) :
  (forall k' v', In (k', v') d -> key_eqb k' k = false) ->
  dict_set k v d = d ++ [(k, v)].
Proof.
  induction d as [| [k0 v0] d IH]; intros Hfresh; [reflexivity |].
  cbn [dict_set app]. rewrite (Hfresh k0 v0 (or_introl eq_refl)).
  rewrite IH; [reflexivity |].
  intros k' v' Hin. apply (Hfresh k' v'). right. exact Hin.
Qed.

(** [dict] over pairs with distinct names, none of them a key yet, appends
    the pairs in their order. *)
Lemma dict_of_distinct_names (pairs : list (string * value)) :
  forall acc,
    NoDup (map fst pairs) ->
    (forall n k v,
        In n (map fst pairs) -> In (k, v) acc -> key_eqb k (KStr n) = false) ->
    dict_of_pairs_from acc (map (fun p => (VStr (fst p), snd p)) pairs)
    = Some (acc ++ map (fun p => (KStr (fst p), snd p)) pairs).
Proof.
  induction pairs as [| [n v] pairs IH]; intros acc Hnodup Hfresh.
  - simpl. rewrite app_nil_r. reflexivity.
  - cbn [map fst snd dict_of_pairs_from to_key].
    cbn [map fst] in Hnodup. inversion Hnodup as [| n' l Hnotin Hrest]; subst.
    rewrite dict_set_fresh.
    + rewrite IH.
      * rewrite <- app_assoc. reflexivity.
      * exact Hrest.
      * intros m k w Hm Hin. apply in_app_or in Hin.
        destruct Hin as [Hin | [Heq | []]].
        -- apply (Hfresh m k w); [right; exact Hm | exact Hin].
        -- injection Heq as <- <-. cbn [key_eqb]. apply String.eqb_neq.
           intros ->. exact (Hnotin Hm).
    + intros k' v' Hin. apply (Hfresh n k' v'); [left; reflexivity | exact Hin].
Qed.

Lemma combine_distinct (cs : list string) :
  forall row : list value, NoDup cs -> NoDup (map fst (combine cs row)).
Proof.
  induction cs as [| c cs IH]; intros [| x row] Hnodup; simpl;
    try constructor.
  - inversion Hnodup as [| c' l Hnotin Hrest]; subst.
    intros Hin. apply Hnotin. exact (combine_names cs row c Hin).
  - inversion Hnodup as [| c' l Hnotin Hrest]; subst. exact (IH row Hrest).
Qed.

Lemma combine_keys (cs : list string) :
  forall row : list value,
    map (fun p => (KStr (fst p), snd p)) (combine cs row)
    = combine (map KStr cs) row.
Proof.
  induction cs as [| c cs IH]; intros [| x row]; simpl; try reflexivity.
  rewrite IH. reflexivity.
Qed.

(** X19.  With column names that are all different, each record is
    exactly the pairs of column name and value in the order of the
    columns, as many as the shorter of the columns and the row has: values
    beyond the columns are dropped and columns beyond the row have no
    entry.  These records are what [_to_dataframe] returns without pandas,
    and what it hands to [pd.DataFrame] with pandas. *)
Theorem to_dataframe_distinct_columns (d : list (key * value))
  (cs : list string) (rows : list (list value)) :
  dict_lookup (KStr "columns") d = Some (VList (map VStr cs)) ->
  dict_lookup (KStr "data") d = Some (VList (map VList rows)) ->
  NoDup cs ->
  _to_dataframe false (VDict d)
  = Return (Plain (VList (map (fun row => VDict (combine (map KStr cs) row))
                              rows)))
  /\ _to_dataframe true (VDict d)
     = Return (DataFrame (map (fun row => VDict (combine (map KStr cs) row))
                              rows)).
Proof.
  intros Hcols Hdata Hnodup.
  unfold _to_dataframe, is_columnar, dict_mem, subscript.
  rewrite Hcols, Hdata. cbn [andb iter].
  assert (Hrows : comprehension (row_dict (VList (map VStr cs)))
                    (map VList rows)
                  = Return (map (fun row => VDict (combine (map KStr cs) row))
                                rows)).
  { clear Hdata. induction rows as [| row rows IH]; [reflexivity |].
    cbn [map comprehension]. rewrite IH.
    unfold row_dict, dict_of_pairs. cbn [iter]. rewrite zip_names.
    rewrite (dict_of_distinct_names (combine cs row) []).
    - cbn [app]. rewrite combine_keys. reflexivity.
    - apply combine_distinct. exact Hnodup.
    - intros n k v _ []. }
  rewrite Hrows. split; reflexivity.
Qed.

Lemma to_dataframe_distinct_columns_witness :
  _to_dataframe false
    (VDict [(KStr "columns", VList (map VStr ["name"; "score"]%string));
            (KStr "data", VList (map VList [[VStr "x"; VInt 1; VInt 9];
                                            [VStr "y"]]))])
  = Return (Plain (VList [VDict [(KStr "name", VStr "x"); (KStr "score", VInt 1)];
                          VDict [(KStr "name", VStr "y")]]))
  /\ _to_dataframe true
       (VDict [(KStr "columns", VList (map VStr ["name"; "score"]%string));
               (KStr "data", VList (map VList [[VStr "x"; VInt 1; VInt 9];
                                               [VStr "y"]]))])
     = Return (DataFrame [VDict [(KStr "name", VStr "x"); (KStr "score", VInt 1)];
                          VDict [(KStr "name", VStr "y")]]).
Proof.
  apply (to_dataframe_distinct_columns
           [(KStr "columns", VList (map VStr ["name"; "score"]%string));
            (KStr "data", VList (map VList [[VStr "x"; VInt 1; VInt 9];
                                            [VStr "y"]]))]
           ["name"; "score"]%string
           [[VStr "x"; VInt 1; VInt 9]; [VStr "y"]] eq_refl eq_refl).
  repeat constructor; simpl; intuition discriminate.
Defined.

(** ** __repr__ *)

Section Repr.

Local Open Scope string_scope.

Lemma slice_split (n : nat) :
  forall s, s = slice_to n s ++ slice_from n s.
Proof.
  induction n as [| n IH]; intros [| a rest]; simpl; try reflexivity.
  rewrite <- IH. reflexivity.
Qed.

Lemma slice_to_length (n : nat) :
  forall s, String.length (slice_to n s) = Nat.min n (String.length s).
Proof.
  induction n as [| n IH]; intros [| a rest]; simpl; try reflexivity.
  rewrite IH. reflexivity.
Qed.

(** X20.  The text of a client shows its base URL and the beginning of
    its key id, eight characters at most, and is made of these alone: the
    rest of the key id, the key pass and the stored defaults are not in it. *)
Theorem repr_shows_key_prefix (c : MLArenaClient) :
  exists shown hidden,
    _key_id c = shown ++ hidden
    /\ String.length shown = Nat.min 8 (String.length (_key_id c))
    /\ __repr__ c
       = "MLArenaClient(base_url='" ++ _base_url c ++ "', key_id='"
         ++ shown ++ "...')".
Proof.
  exists (slice_to 8 (_key_id c)), (slice_from 8 (_key_id c)).
  split; [apply slice_split |]. split; [apply slice_to_length |].
  reflexivity.
Qed.

End Repr.
